(** * task-runner-agent: the task lifecycle orchestrator

    A shallow embedding of
    - [src/worker/tasks-app.ts] (the Hono worker: create task, event stream,
      diff, abort), and
    - [src/react-app/hooks/use-task-events.ts] (the event subscription and the
      status derived from the events),
    followed by the properties of the specification that concern them.

    Conventions of the embedding:
    - a JavaScript value is a [jsval]; objects are finite maps from property
      names to values ([gmap string jsval]), numbers are IEEE binary64 floats;
    - a JavaScript string is a [string]; positions count its characters;
    - [console.log], [console.debug] and [console.error] are not modelled;
    - the sandbox SDK, [Date], [Math.random], [JSON.parse] and
      [JSON.stringify] are not part of the repository: the calls made to the
      sandbox are recorded in a history, and what the outside world answers is
      a parameter ([World], [Runtime]). *)

From Stdlib Require Import Floats Ascii.
From stdpp Require Import gmap strings list fin_maps pretty sorting.

(** ** JavaScript values *)

#[warnings="-register-all"]
Inductive jsval : Type :=
  | JUndefined
  | JNull
  | JBool (b : bool)
  | JNum (f : float)
  | JStr (s : string)
  | JArr (l : list jsval)
  | JObj (m : gmap string jsval).

Module JS.

(** [Boolean(v)]: the values that are not falsy. *)
Definition truthy (v : jsval) : bool :=
  match v with
  | JUndefined | JNull => false
  | JBool b => b
  | JNum f => negb (PrimFloat.is_zero f || PrimFloat.is_nan f)
  | JStr s => negb (String.eqb s "")
  | JArr _ | JObj _ => true
  end.

(** [a || b] *)
Definition or_else (a b : jsval) : jsval := if truthy a then a else b.

(** [v === s] for a string [s]. *)
Definition strict_eq_str (v : jsval) (s : string) : bool :=
  match v with
  | JStr t => String.eqb t s
  | _ => false
  end.

(** [o.k] on an object created by an object literal or by [JSON.parse]:
    a property that is not there reads as [undefined]. *)
Definition prop (m : gmap string jsval) (k : string) : jsval :=
  default JUndefined (m !! k).

(** [v.k] for an arbitrary value: a [TypeError] ([None]) on [undefined] and
    [null]; on a primitive or an array the property names this program reads
    ("type", "data", "properties", "sessionID", "messageID", "part") are on no
    built-in prototype, so they read as [undefined]. *)
Definition member (v : jsval) (k : string) : option jsval :=
  match v with
  | JUndefined | JNull => None
  | JObj m => Some (prop m k)
  | JBool _ | JNum _ | JStr _ | JArr _ => Some JUndefined
  end.

(** [v?.k] *)
Definition opt_member (v : jsval) (k : string) : jsval :=
  default JUndefined (member v k).

(** The own enumerable properties that [{...v}] copies: those of an object,
    the indices of an array or of a string, nothing for the other values. *)
Definition own_props (v : jsval) : gmap string jsval :=
  match v with
  | JObj m => m
  | JArr l => list_to_map (imap (λ (i : nat) x, (pretty i, x)) l)
  | JStr s =>
      list_to_map
        (imap (λ (i : nat) a, (pretty i, JStr (String a ""))) (String.list_ascii_of_string s))
  | JUndefined | JNull | JBool _ | JNum _ => ∅
  end.

(** [s.startsWith(p)] *)
Definition startsWith (p s : string) : bool := String.prefix p s.

(** [s.slice(n)] for [0 <= n] *)
Fixpoint slice (n : nat) (s : string) : string :=
  match n, s with
  | 0, _ => s
  | S n', String _ s' => slice n' s'
  | S _, EmptyString => EmptyString
  end.

(** [s.substring(0, n)] *)
Definition substring0 (n : nat) (s : string) : string := String.substring 0 n s.

(** [s.includes(needle)] *)
Fixpoint includes (needle s : string) : bool :=
  String.prefix needle s
  || match s with
     | String _ s' => includes needle s'
     | EmptyString => false
     end.

(** [s.replace(/'/g, "'\\''")]: every single quote becomes the four
    characters quote, backslash, quote, quote. *)
Fixpoint escape_quotes (s : string) : string :=
  match s with
  | EmptyString => EmptyString
  | String a s' =>
      (if Ascii.eqb a "'"%char then "'\''" else String a "") +:+ escape_quotes s'
  end.

(** [l.join(" ")] *)
Definition join_space (l : list string) : string := String.concat " " l.

(** An object literal, its properties given in order (a later one wins). *)
Definition obj (l : list (string * jsval)) : jsval :=
  JObj (list_to_map (reverse l)).

(** [String(v)] for a value that [JSON.parse] can produce (or [undefined]);
    [num] prints a number. An array prints its elements separated by commas,
    [null] and [undefined] among them as nothing; an object prints as
    "[object Object]", unless it has a property "toString" of its own: that
    property is no function, and the conversion throws a [TypeError]
    ([None]). *)
Fixpoint ToString (num : float → string) (v : jsval) {struct v} : option string :=
  match v with
  | JUndefined => Some "undefined"
  | JNull => Some "null"
  | JBool b => Some (if b then "true" else "false")
  | JNum f => Some (num f)
  | JStr s => Some s
  | JArr l =>
      String.concat ","
        <$> (fix elements (l : list jsval) : option (list string) :=
               match l with
               | [] => Some []
               | x :: l' =>
                   s ← match x with
                       | JUndefined | JNull => Some ""
                       | _ => ToString num x
                       end;
                   rest ← elements l';
                   Some (s :: rest)
               end) l
  | JObj m => if decide (is_Some (m !! "toString")) then None else Some "[object Object]"
  end.

(** [l.join(sep)] *)
Fixpoint join (num : float → string) (sep : string) (l : list jsval)
    : option string :=
  match l with
  | [] => Some ""
  | x :: l' =>
      s ← match x with
          | JUndefined | JNull => Some ""
          | _ => ToString num x
          end;
      match l' with
      | [] => Some s
      | _ :: _ => rest ← join num sep l'; Some (s +:+ sep +:+ rest)
      end
  end.

End JS.

(** [JSON.parse] (a value, or the message of the [SyntaxError] it throws) and
    [JSON.stringify], as the JavaScript runtime provides them. *)
Record Runtime : Type := {
  JSON_parse : string → jsval + string;
  JSON_stringify : jsval → string
}.

(** ** [use-task-events.ts]: the event subscription *)

Module Hook.
Import JS.

(** [TaskEvent]: the normalized event. *)
Record TaskEvent : Type := {
  type : jsval;
  properties : gmap string jsval
}.

(** [DerivedStatus] *)
Inductive DerivedStatus : Type :=
  | Idle | Busy | Completed | Error | Unknown.

(** The object literal that maps an OpenCode event to a [TaskEvent]:
    [sessionId], [messageId] and [part] first, then the spread of the native
    properties, which overwrites them where the names coincide. *)
Definition normalize (openCodeEvent : jsval) : option TaskEvent :=
  ty ← member openCodeEvent "type";
  props ← member openCodeEvent "properties";
  sessionID ← member props "sessionID";
  messageID ← member props "messageID";
  part ← member props "part";
  Some {|
    type := ty;
    properties :=
      own_props props ∪
      <["part" := part]>
        (<["messageId" := or_else messageID (opt_member part "messageID")]>
           {["sessionId" := or_else sessionID (opt_member part "sessionID")]})
  |}.

(** The session filter of [onmessage]. *)
Definition shouldDeliver (taskEvent : TaskEvent) (sessionId : string) : bool :=
  negb (truthy (prop (properties taskEvent) "sessionId"))
  || strict_eq_str (prop (properties taskEvent) "sessionId") sessionId.

(** [if (filter) setEvents((prev) => [...prev, taskEvent])] *)
Definition deliver (sessionId : string) (taskEvent : TaskEvent)
    (prev : list TaskEvent) : list TaskEvent :=
  if shouldDeliver taskEvent sessionId then prev ++ [taskEvent] else prev.

(** The body of the [try] block of [eventSource.onmessage]: [None] is an
    exception ([SyntaxError] of [JSON.parse], [TypeError] of a property read
    or of calling [trim] on a value that has none). [trim] is
    [String.prototype.trim], as the JavaScript runtime provides it: it
    strips the white space and the line terminators of ECMAScript, which are
    more than those of ASCII. *)
Definition onmessage_try (rt : Runtime) (trim : string → string)
    (sessionId : string) (data : string) (prev : list TaskEvent)
    : option (list TaskEvent) :=
  match JSON_parse rt data with
  | inr _ => None
  | inl wrapper =>
      wtype ← member wrapper "type";
      wdata ← member wrapper "data";
      if negb (strict_eq_str wtype "stdout") || negb (truthy wdata) then Some prev
      else
        match wdata with
        | JStr d =>
            let sseData := trim d in
            if negb (startsWith "data: " sseData) then Some prev
            else
              let jsonStr := slice 6 sseData in
              if String.eqb jsonStr "" then Some prev
              else
                match JSON_parse rt jsonStr with
                | inr _ => None
                | inl openCodeEvent =>
                    taskEvent ← normalize openCodeEvent;
                    Some (deliver sessionId taskEvent prev)
                end
        | _ => None
        end
  end.

(** [eventSource.onmessage]: the [catch] block only logs, the list of events
    is left as it was. *)
Definition onmessage (rt : Runtime) (trim : string → string)
    (sessionId : string) (data : string) (prev : list TaskEvent)
    : list TaskEvent :=
  default prev (onmessage_try rt trim sessionId data prev).

(** The body of the [for (const event of events)] loop of the status
    derivation, on the two local variables [status] and [complete]. *)
Definition derive_body (event : TaskEvent) (status : DerivedStatus)
    (complete : bool) : DerivedStatus * bool :=
  if strict_eq_str (type event) "session.status" then
    let statusType := opt_member (prop (properties event) "status") "type" in
    if strict_eq_str statusType "busy" then (Busy, complete)
    else if strict_eq_str statusType "idle" then (Idle, complete)
    else (status, complete)
  else if strict_eq_str (type event) "session.idle" then (Completed, true)
  else if strict_eq_str (type event) "error" then (Error, true)
  else (status, complete).

Fixpoint derive_loop (events : list TaskEvent) (status : DerivedStatus)
    (complete : bool) : DerivedStatus * bool :=
  match events with
  | [] => (status, complete)
  | event :: rest =>
      let '(status', complete') := derive_body event status complete in
      derive_loop rest status' complete'
  end.

(** The [useMemo] callback: [{ derivedStatus, isComplete }]. *)
Definition deriveStatus (events : list TaskEvent) : DerivedStatus * bool :=
  derive_loop events Unknown false.

(** [getAssistantTextFromEvents]: the parts that the loop pushes. *)
Definition text_part (event : TaskEvent) : list jsval :=
  if strict_eq_str (type event) "message.part.updated" then
    let delta := prop (properties event) "delta" in
    if truthy delta then [delta] else []
  else if strict_eq_str (type event) "message.part.delta"
          && strict_eq_str (opt_member (prop (properties event) "part") "type") "text"
          && truthy (opt_member (prop (properties event) "part") "text")
  then [opt_member (prop (properties event) "part") "text"]
  else [].

Fixpoint textParts (events : list TaskEvent) (parts : list jsval) : list jsval :=
  match events with
  | [] => parts
  | event :: rest => textParts rest (parts ++ text_part event)
  end.

(** [getAssistantTextFromEvents]; [None] is the [TypeError] of a part that
    cannot be converted to a string. *)
Definition getAssistantTextFromEvents (num : float → string)
    (events : list TaskEvent) : option string :=
  join num "" (textParts events []).

(** An element of the result of [getToolUsageFromEvents]. *)
Record ToolUsage : Type := {
  tool : jsval;
  input : jsval;
  output : jsval
}.

(** The body of the loop of [getToolUsageFromEvents], on [tools] and
    [currentTool] ([None] is [null]). In the first branch [part.tool] is
    truthy, so [part] is an object and [part.input] cannot throw. *)
Definition tool_body (event : TaskEvent)
    (st : list ToolUsage * option ToolUsage) : list ToolUsage * option ToolUsage :=
  let '(tools, currentTool) := st in
  let part := prop (properties event) "part" in
  if strict_eq_str (type event) "tool.start" && truthy (opt_member part "tool") then
    (tools,
     Some {| tool := opt_member part "tool"; input := opt_member part "input";
             output := JUndefined |})
  else if strict_eq_str (type event) "tool.end" then
    match currentTool with
    | Some current =>
        (tools ++ [{| tool := tool current; input := input current;
                      output := opt_member part "output" |}],
         None)
    | None => (tools, currentTool)
    end
  else (tools, currentTool).

Fixpoint tool_loop (events : list TaskEvent)
    (st : list ToolUsage * option ToolUsage) : list ToolUsage * option ToolUsage :=
  match events with
  | [] => st
  | event :: rest => tool_loop rest (tool_body event st)
  end.

(** [getToolUsageFromEvents] *)
Definition getToolUsageFromEvents (events : list TaskEvent) : list ToolUsage :=
  (tool_loop events ([], None)).1.

End Hook.

(** ** [tasks-app.ts]: the worker

    In this module the promises of the sandbox ([exec], [startProcess],
    [execStream]) resolve: it is the worker in a sandbox that answers. The
    module [Rejecting] below embeds the functions that call [exec] and
    [startProcess] for a sandbox whose calls may also reject. *)

Module TasksApp.
Import JS.

(** What [sandbox.exec] resolves to. *)
Record ExecResult : Type := {
  stdout : string;
  stderr : string;
  exitCode : Z;
  success : bool
}.

(** The calls the worker makes to its execution context (and to the timer),
    in the order it makes them. *)
Inductive Call : Type :=
  | GetSandbox (id : string)
  | Exec (sandbox command : string) (cwd : option string)
  | StartProcess (sandbox command : string) (cwd : option string)
      (env : list (string * string))
  | ExecStream (sandbox command : string)
  | SetTimeout (ms : Z).

(** The outside world: what it answers depends on everything that was asked
    of it so far (the history ends with the call that is answered). *)
Record World : Type := {
  exec_result : list Call → ExecResult;
  exec_stream : list Call → list string;
  Date_now : list Call → string;
  Date_toISOString : list Call → string;
  Math_random_toString36 : list Call → string
}.

(** A computation of the worker: it extends the history, and returns a value
    ([inl]) or throws an [Error] with a message ([inr]). *)
Definition M (A : Type) : Type := list Call → (A + string) * list Call.

Definition ret {A} (a : A) : M A := λ h, (inl a, h).

Definition throw {A} (message : string) : M A := λ h, (inr message, h).

Definition bind {A B} (m : M A) (k : A → M B) : M B :=
  λ h, match m h with
       | (inl a, h') => k a h'
       | (inr e, h') => (inr e, h')
       end.

Definition try_catch {A} (m : M A) (handler : string → M A) : M A :=
  λ h, match m h with
       | (inl a, h') => (inl a, h')
       | (inr e, h') => handler e h'
       end.

Declare Scope worker_scope.
Delimit Scope worker_scope with worker.
Notation "x <- m ;; k" := (bind m (λ x, k))
  (at level 100, m at next level, right associativity) : worker_scope.
Notation "m ;; k" := (bind m (λ _, k))
  (at level 100, right associativity) : worker_scope.
Local Open Scope worker_scope.

Section Worker.
Context (rt : Runtime) (w : World).

Definition getSandbox (taskId : string) : M string :=
  λ h, (inl taskId, h ++ [GetSandbox taskId]).

Definition exec (sandbox command : string) (cwd : option string) : M ExecResult :=
  λ h, let h' := h ++ [Exec sandbox command cwd] in (inl (exec_result w h'), h').

(** The process handle is only logged. *)
Definition startProcess (sandbox command : string) (cwd : option string)
    (env : list (string * string)) : M unit :=
  λ h, (inl (), h ++ [StartProcess sandbox command cwd env]).


(** [await new Promise((resolve) => setTimeout(resolve, ms))] *)
Definition sleep (ms : Z) : M unit :=
  λ h, (inl (), h ++ [SetTimeout ms]).

Definition now_ms : M string := λ h, (inl (Date_now w h), h).
Definition now_iso : M string := λ h, (inl (Date_toISOString w h), h).
Definition random36 : M string := λ h, (inl (Math_random_toString36 w h), h).

(** The result of [curlJson]: [{ data, raw, error }]. *)
Record CurlResult : Type := {
  data : jsval;
  raw : string;
  error : option string
}.

Definition curl_command (method url : string) (body : jsval) : string :=
  let curlArgs :=
    ["curl"; "-s"; "-X"; method; "-H"; "'Content-Type: application/json'"] in
  let curlArgs :=
    if truthy body
    then curlArgs ++ ["-d"; "'" +:+ escape_quotes (JSON_stringify rt body) +:+ "'"]
    else curlArgs in
  let curlArgs := curlArgs ++ ["'" +:+ url +:+ "'"] in
  join_space curlArgs.

Definition curlJson (sandbox method url : string) (body : jsval) : M CurlResult :=
  result <- exec sandbox (curl_command method url body) None;;
  if negb (success result) then
    ret {| data := JNull; raw := stderr result;
           error := Some ("curl failed: " +:+ stderr result) |}
  else
    match JSON_parse rt (stdout result) with
    | inl json => ret {| data := json; raw := stdout result; error := None |}
    | inr message =>
        ret {| data := JNull; raw := stdout result;
               error := Some ("Failed to parse JSON: " +:+ message) |}
    end.

Definition probe_command : string :=
  "curl -sf http://localhost:4096/session || echo 'not ready'".

Definition probe_ok (result : ExecResult) : bool :=
  success result && negb (includes "not ready" (stdout result)).

(** [waitForOpenCode]: the [for] loop, on the number of attempts that are
    left ([maxAttempts - i]). *)
Fixpoint waitForOpenCode (sandbox : string) (maxAttempts : nat) (intervalMs : Z)
    : M bool :=
  match maxAttempts with
  | 0 => ret false
  | S remaining =>
      result <- exec sandbox probe_command None;;
      if probe_ok result then ret true
      else sleep intervalMs;; waitForOpenCode sandbox remaining intervalMs
  end.

(** [c.json(body, status)], and [new Response(stream, { headers })]. *)
Inductive HttpResponse : Type :=
  | Json (body : jsval) (status : Z)
  | Stream (body : list string) (headers : list (string * string)).

(** [OpenCodeSessionResponseSchema.safeParse(v)]: [z.object({ id: z.string() })];
    on success, [data.id]. *)
Definition OpenCodeSessionResponseSchema (v : jsval) : option string :=
  match v with
  | JObj m => match m !! "id" with Some (JStr id) => Some id | _ => None end
  | _ => None
  end.

(** [z.string().optional()] on the property [k]: the string, [undefined] when
    the property is not there, or a failure. *)
Definition optional_string (m : gmap string jsval) (k : string) : option jsval :=
  match prop m k with
  | JStr s => Some (JStr s)
  | JUndefined => Some JUndefined
  | _ => None
  end.

(** [OpenCodeErrorResponseSchema.safeParse(v)]; on success,
    [(data.error, data.message)]. *)
Definition OpenCodeErrorResponseSchema (v : jsval) : option (jsval * jsval) :=
  match v with
  | JObj m =>
      e ← optional_string m "error";
      msg ← optional_string m "message";
      Some (e, msg)
  | _ => None
  end.

(** The text of a value inside a template string, for the values that reach
    one here (a string or [undefined]). *)
Definition template (v : jsval) : string :=
  match v with
  | JStr s => s
  | _ => "undefined"
  end.

(** The validated body of [POST /tasks] ([CreateTaskSchema]: [branch] has its
    default by now). *)
Record CreateTaskRequest : Type := {
  repoUrl : string;
  branch : string;
  prompt : string
}.

Definition clone_command (req : CreateTaskRequest) : string :=
  "git clone --branch " +:+ branch req +:+ " --single-branch " +:+ repoUrl req
  +:+ " /workspace/repo".

Definition opencode_env : list (string * string) :=
  [("PATH", "/usr/local/bin:/usr/bin:/bin"); ("HOME", "/root");
   ("NODE_EXTRA_CA_CERTS", "/etc/ssl/certs/Cloudflare_CA.pem");
   ("NODE_TLS_REJECT_UNAUTHORIZED", "0")].

Definition message_command (req : CreateTaskRequest) (sessionId : string) : string :=
  let messageBody :=
    escape_quotes
      (JSON_stringify rt
         (obj [("parts",
                JArr [obj [("type", JStr "text"); ("text", JStr (prompt req))]])])) in
  "curl -s -X POST -H 'Content-Type: application/json' -d '" +:+ messageBody
  +:+ "' 'http://localhost:4096/session/" +:+ sessionId +:+ "/message'".

(** The [try] block of [app.post("", ...)]. *)
Definition createTask_try (req : CreateTaskRequest) : M HttpResponse :=
  ms <- now_ms;;
  rnd <- random36;;
  let taskId := "task-" +:+ ms +:+ "-" +:+ slice 7 rnd in
  createdAt <- now_iso;;
  sandbox <- getSandbox taskId;;
  cloneResult <- exec sandbox (clone_command req) None;;
  if negb (success cloneResult) then
    throw ("Failed to clone repository: " +:+ stderr cloneResult)
  else
  startProcess sandbox "opencode serve --port 4096 --hostname 0.0.0.0"
    (Some "/workspace/repo") opencode_env;;
  isReady <- waitForOpenCode sandbox 30 1000;;
  if negb isReady then throw "OpenCode server failed to start within timeout"
  else
  sessionResult <-
    curlJson sandbox "POST" "http://localhost:4096/session"
      (obj [("title", JStr ("Task: " +:+ substring0 50 (prompt req) +:+ "..."))]);;
  if truthy (from_option JStr JNull (error sessionResult)) then
    throw ("Failed to create session: " +:+ template (from_option JStr JNull (error sessionResult)))
  else
  match OpenCodeSessionResponseSchema (data sessionResult) with
  | None =>
      match OpenCodeErrorResponseSchema (data sessionResult) with
      | Some (e, msg) =>
          if truthy (or_else e msg)
          then throw ("OpenCode API error: " +:+ template (or_else e msg))
          else throw ("Unexpected session response format: "
                      +:+ JSON_stringify rt (data sessionResult))
      | None =>
          throw ("Unexpected session response format: "
                 +:+ JSON_stringify rt (data sessionResult))
      end
  | Some sessionId =>
      startedAt <- now_iso;;
      startProcess sandbox (message_command req sessionId)
        (Some "/workspace/repo") [];;
      ret (Json
             (obj [("data",
                    obj [("id", JStr taskId); ("status", JStr "running");
                         ("repoUrl", JStr (repoUrl req));
                         ("branch", JStr (branch req));
                         ("prompt", JStr (prompt req));
                         ("sessionId", JStr sessionId);
                         ("createdAt", JStr createdAt);
                         ("startedAt", JStr startedAt)])])
             201)
  end.

(** [app.post("", ...)]: create a task. *)
Definition createTask (req : CreateTaskRequest) : M HttpResponse :=
  try_catch (createTask_try req)
    (λ message, ret (Json (obj [("error", JStr message)]) 500)).



(** [app.get("/:id/diff", ...)] *)
Definition getDiff (taskId : string) : M HttpResponse :=
  sandbox <- getSandbox taskId;;
  result <- exec sandbox "git diff HEAD" (Some "/workspace/repo");;
  ret (Json
         (obj [("data",
                obj [("diff", or_else (JStr (stdout result)) (JStr ""));
                     ("taskId", JStr taskId)])])
         200).

(** [app.post("/:id/abort", ...)]; [sessionId] is [c.req.query("sessionId")],
    [None] when the query has no such parameter. *)
Definition abortTask (taskId : string) (sessionId : option string) : M HttpResponse :=
  if negb (truthy (from_option JStr JUndefined sessionId)) then
    ret (Json (obj [("error", JStr "sessionId query parameter required")]) 400)
  else
    let sid := template (from_option JStr JUndefined sessionId) in
    sandbox <- getSandbox taskId;;
    curlJson sandbox "POST"
      ("http://localhost:4096/session/" +:+ sid +:+ "/abort") JUndefined;;
    ret (Json (obj [("data", obj [("success", JBool true); ("taskId", JStr taskId)])])
           200).

End Worker.

End TasksApp.

(** ** [tasks-app.ts], with a sandbox whose [exec] can reject

    [sandbox.exec] returns a promise. [TasksApp] is about the worlds in
    which it resolves; here it can also reject (the container is gone, the
    transport fails), and the [await] throws. The functions that call
    [exec] are embedded again, line by line as in [TasksApp], over this
    [exec]; the handler of [POST /tasks] is given with the validation of
    its request. *)

Module Rejecting.
Import JS TasksApp.
Local Open Scope worker_scope.

(** The outside world: the answers of [TasksApp.World] and, for each call of
    [exec] and of [startProcess], whether it rejects, and with which
    message: the message of the [Error] it rejects with, or [String] of
    what it rejects with, which is what a [catch] block of the worker makes
    of it. The history ends with the call in question. *)
Record Outside : Type := {
  answers : World;
  exec_rejects : list Call → option string;
  startProcess_rejects : list Call → option string
}.

Section Worker.
Context (rt : Runtime) (o : Outside).

Definition exec (sandbox command : string) (cwd : option string) : M ExecResult :=
  λ h, let h' := h ++ [Exec sandbox command cwd] in
       match exec_rejects o h' with
       | Some message => (inr message, h')
       | None => (inl (exec_result (answers o) h'), h')
       end.

Definition startProcess (sandbox command : string) (cwd : option string)
    (env : list (string * string)) : M unit :=
  λ h, let h' := h ++ [StartProcess sandbox command cwd env] in
       match startProcess_rejects o h' with
       | Some message => (inr message, h')
       | None => (inl (), h')
       end.

(** [curlJson]: the [await sandbox.exec] is outside the [try] block, only
    [JSON.parse] is inside. *)
Definition curlJson (sandbox method url : string) (body : jsval) : M CurlResult :=
  result <- exec sandbox (curl_command rt method url body) None;;
  if negb (success result) then
    ret {| data := JNull; raw := stderr result;
           error := Some ("curl failed: " +:+ stderr result) |}
  else
    match JSON_parse rt (stdout result) with
    | inl json => ret {| data := json; raw := stdout result; error := None |}
    | inr message =>
        ret {| data := JNull; raw := stdout result;
               error := Some ("Failed to parse JSON: " +:+ message) |}
    end.

(** [waitForOpenCode] *)
Fixpoint waitForOpenCode (sandbox : string) (maxAttempts : nat) (intervalMs : Z)
    : M bool :=
  match maxAttempts with
  | 0 => ret false
  | S remaining =>
      result <- exec sandbox probe_command None;;
      if probe_ok result then ret true
      else sleep intervalMs;; waitForOpenCode sandbox remaining intervalMs
  end.

(** The [try] block of [app.post("", ...)]. *)
Definition createTask_try (req : CreateTaskRequest) : M HttpResponse :=
  ms <- now_ms (answers o);;
  rnd <- random36 (answers o);;
  let taskId := "task-" +:+ ms +:+ "-" +:+ slice 7 rnd in
  createdAt <- now_iso (answers o);;
  sandbox <- getSandbox taskId;;
  cloneResult <- exec sandbox (clone_command req) None;;
  if negb (success cloneResult) then
    throw ("Failed to clone repository: " +:+ stderr cloneResult)
  else
  startProcess sandbox "opencode serve --port 4096 --hostname 0.0.0.0"
    (Some "/workspace/repo") opencode_env;;
  isReady <- waitForOpenCode sandbox 30 1000;;
  if negb isReady then throw "OpenCode server failed to start within timeout"
  else
  sessionResult <-
    curlJson sandbox "POST" "http://localhost:4096/session"
      (obj [("title", JStr ("Task: " +:+ substring0 50 (prompt req) +:+ "..."))]);;
  if truthy (from_option JStr JNull (error sessionResult)) then
    throw ("Failed to create session: " +:+ template (from_option JStr JNull (error sessionResult)))
  else
  match OpenCodeSessionResponseSchema (data sessionResult) with
  | None =>
      match OpenCodeErrorResponseSchema (data sessionResult) with
      | Some (e, msg) =>
          if truthy (or_else e msg)
          then throw ("OpenCode API error: " +:+ template (or_else e msg))
          else throw ("Unexpected session response format: "
                      +:+ JSON_stringify rt (data sessionResult))
      | None =>
          throw ("Unexpected session response format: "
                 +:+ JSON_stringify rt (data sessionResult))
      end
  | Some sessionId =>
      startedAt <- now_iso (answers o);;
      startProcess sandbox (message_command rt req sessionId)
        (Some "/workspace/repo") [];;
      ret (Json
             (obj [("data",
                    obj [("id", JStr taskId); ("status", JStr "running");
                         ("repoUrl", JStr (repoUrl req));
                         ("branch", JStr (branch req));
                         ("prompt", JStr (prompt req));
                         ("sessionId", JStr sessionId);
                         ("createdAt", JStr createdAt);
                         ("startedAt", JStr startedAt)])])
             201)
  end.

(** The handler of [app.post("", ...)]: the [catch] block answers 500 with
    the message of whatever was thrown, a rejection of [exec] included. *)
Definition createTask (req : CreateTaskRequest) : M HttpResponse :=
  try_catch (createTask_try req)
    (λ message, ret (Json (obj [("error", JStr message)]) 500)).

(** [CreateTaskSchema], on the three strings that the page sends: [repoUrl]
    is a URL ([z.string().url()], the test of the validation library is the
    parameter [is_url]), [branch] is a string (its default is for a body
    without one), [prompt] has at least one character. *)
Definition CreateTaskSchema (is_url : string → bool) (body : CreateTaskRequest)
    : bool :=
  is_url (repoUrl body) && negb (String.eqb (prompt body) "").

(** [app.post("", zValidator("json", CreateTaskSchema), ...)]: a body that
    the schema refuses is answered by the validator, with 400 and
    [{ success: false, error }], where [error] is the object that describes
    the issues ([zod_error]); the handler runs on the other bodies. *)
Definition post_tasks (is_url : string → bool)
    (zod_error : CreateTaskRequest → gmap string jsval) (body : CreateTaskRequest)
    : M HttpResponse :=
  if CreateTaskSchema is_url body then createTask body
  else ret (Json (obj [("success", JBool false); ("error", JObj (zod_error body))]) 400).

(** [app.get("/:id/diff", ...)]: no [try] around the [await]. *)
Definition getDiff (taskId : string) : M HttpResponse :=
  sandbox <- getSandbox taskId;;
  result <- exec sandbox "git diff HEAD" (Some "/workspace/repo");;
  ret (Json
         (obj [("data",
                obj [("diff", or_else (JStr (stdout result)) (JStr ""));
                     ("taskId", JStr taskId)])])
         200).

End Worker.

End Rejecting.

(** ** [TaskPage.tsx]: what the page makes of the events *)

Module TaskPage.
Import JS Hook.

(** What [formatEvent] returns: [{ label, detail, color }]. *)
Module Formatted.
Record t : Type := { label : string; detail : string; color : string }.
End Formatted.

(** [DisplayEvent] *)
Record DisplayEvent : Type := {
  label : string;
  detail : string;
  color : string;
  index : Z
}.

(** The truthiness of a string. *)
Definition nonempty (s : string) : bool := negb (String.eqb s "").

Definition text_entry (textAccumulator : string) (textStartIndex : Z) : DisplayEvent :=
  {| label := "text"; detail := textAccumulator; color := "text-foreground";
     index := textStartIndex |}.

(** The body of the loop of [consolidateEvents], on [result],
    [textAccumulator] and [textStartIndex]. *)
Definition consolidate_body (i : Z) (formatted : Formatted.t)
    (st : list DisplayEvent * string * Z) : list DisplayEvent * string * Z :=
  let '(result, textAccumulator, textStartIndex) := st in
  if String.eqb (Formatted.label formatted) "text"
     && nonempty (Formatted.detail formatted)
  then
    (result, textAccumulator +:+ Formatted.detail formatted,
     if Z.eqb textStartIndex (-1) then i else textStartIndex)
  else
    let '(result, textAccumulator, textStartIndex) :=
      if nonempty textAccumulator
      then (result ++ [text_entry textAccumulator textStartIndex], "", (-1)%Z)
      else (result, textAccumulator, textStartIndex) in
    let result :=
      if nonempty (Formatted.label formatted) || nonempty (Formatted.detail formatted)
      then result ++ [{| label := Formatted.label formatted;
                         detail := Formatted.detail formatted;
                         color := Formatted.color formatted;
                         index := i |}]
      else result in
    (result, textAccumulator, textStartIndex).

Fixpoint consolidate_loop (formatEvent : TaskEvent → Formatted.t)
    (events : list TaskEvent) (i : Z) (st : list DisplayEvent * string * Z)
    : list DisplayEvent * string * Z :=
  match events with
  | [] => st
  | event :: rest =>
      consolidate_loop formatEvent rest (i + 1)
        (consolidate_body i (formatEvent event) st)
  end.

(** [consolidateEvents] *)
Definition consolidateEvents (events : list TaskEvent)
    (formatEvent : TaskEvent → Formatted.t) : list DisplayEvent :=
  let '(result, textAccumulator, textStartIndex) :=
    consolidate_loop formatEvent events 0 ([], "", (-1)%Z) in
  if nonempty textAccumulator
  then result ++ [text_entry textAccumulator textStartIndex]
  else result.

(** [getStatusColor] *)
Definition getStatusColor (status : string) : string :=
  if String.eqb status "running" || String.eqb status "busy" then "bg-blue-500"
  else if String.eqb status "completed" || String.eqb status "idle" then "bg-green-500"
  else if String.eqb status "error" then "bg-red-500"
  else if String.eqb status "aborted" then "bg-yellow-500"
  else "bg-gray-500".

(** [getDisplayStatus] *)
Definition getDisplayStatus (serverStatus : string) (derivedStatus : DerivedStatus)
    (isComplete : bool) : string :=
  if isComplete then
    match derivedStatus with
    | Error => "error"
    | _ => "completed"
    end
  else
    match derivedStatus with
    | Busy => "running"
    | _ => serverStatus
    end.

End TaskPage.

(** ** [use-task.ts] and [use-task-diff.ts]: the calls of the page to the worker *)

Module Client.
Import JS.

(** What [fetch] is called with. *)
Record Request : Type := {
  url : string;
  method : string;
  headers : list (string * string);
  body : option string
}.

(** What [fetch] resolves to: [response.ok], and what [response.json()]
    resolves to ([None] when it rejects). *)
Record Response : Type := {
  ok : bool;
  json : option jsval
}.

(** How a call fails: [new Error(message)] thrown by the function itself (the
    message is [String(message)]), a [TypeError] of a property read, or the
    rejection of [fetch] or of [response.json()]. *)
Inductive Failure : Type :=
  | Thrown (message : jsval)
  | TypeError
  | Rejected.

Section Client.
Context (rt : Runtime) (encodeURIComponent : string → string)
  (fetch : Request → option Response).

(** [if (result.error) throw new Error(result.error)], then [k]. *)
Definition check_error {A} (result : jsval) (k : A + Failure) : A + Failure :=
  match member result "error" with
  | None => inr TypeError
  | Some e => if truthy e then inr (Thrown e) else k
  end.

(** [createTask] of [use-task.ts] *)
Definition createTask (data : TasksApp.CreateTaskRequest) : jsval + Failure :=
  match fetch {| url := "/api/tasks"; method := "POST";
                 headers := [("Content-Type", "application/json")];
                 body :=
                   Some (JSON_stringify rt
                           (obj [("repoUrl", JStr (TasksApp.repoUrl data));
                                 ("branch", JStr (TasksApp.branch data));
                                 ("prompt", JStr (TasksApp.prompt data))])) |} with
  | None => inr Rejected
  | Some response =>
      if negb (ok response) then
        match json response with
        | None => inr Rejected
        | Some errorResult =>
            match member errorResult "error" with
            | None => inr TypeError
            | Some e => inr (Thrown (or_else e (JStr "Failed to create task")))
            end
        end
      else
        match json response with
        | None => inr Rejected
        | Some result => check_error result (inl (opt_member result "data"))
        end
  end.

(** [abortTask] of [use-task.ts] *)
Definition abortTask (taskId sessionId : string) : jsval + Failure :=
  match fetch {| url := "/api/tasks/" +:+ taskId +:+ "/abort?sessionId="
                        +:+ encodeURIComponent sessionId;
                 method := "POST"; headers := []; body := None |} with
  | None => inr Rejected
  | Some response =>
      if negb (ok response) then inr (Thrown (JStr "Failed to abort task"))
      else
        match json response with
        | None => inr Rejected
        | Some result => check_error result (inl (opt_member result "data"))
        end
  end.

(** [fetchTaskDiff] of [use-task-diff.ts] *)
Definition fetchTaskDiff (taskId : string) : jsval + Failure :=
  match fetch {| url := "/api/tasks/" +:+ taskId +:+ "/diff"; method := "GET";
                 headers := []; body := None |} with
  | None => inr Rejected
  | Some response =>
      if negb (ok response) then inr (Thrown (JStr "Failed to fetch diff"))
      else
        match json response with
        | None => inr Rejected
        | Some result =>
            check_error result
              (inl (or_else (opt_member (opt_member result "data") "diff") (JStr "")))
        end
  end.

End Client.

End Client.

(** ** The vocabulary of the specification *)

Module Spec.
Import JS Hook.

(** The falsy values of JavaScript. *)
Inductive falsy : jsval → Prop :=
  | falsy_undefined : falsy JUndefined
  | falsy_null : falsy JNull
  | falsy_false : falsy (JBool false)
  | falsy_empty_string : falsy (JStr "")
  | falsy_zero f : PrimFloat.is_zero f = true → falsy (JNum f)
  | falsy_nan f : PrimFloat.is_nan f = true → falsy (JNum f).

(** The resolved session identifier of a normalized event. *)
Definition resolved_sessionId (e : TaskEvent) : jsval :=
  prop (properties e) "sessionId".

(** [properties.status.type] of a normalized event. *)
Definition status_type (e : TaskEvent) : jsval :=
  opt_member (prop (properties e) "status") "type".

(** An event that one of the four fold rules of section 4.4 is about. *)
Definition matching (e : TaskEvent) : Prop :=
  (type e = JStr "session.status"
   ∧ (status_type e = JStr "busy" ∨ status_type e = JStr "idle"))
  ∨ type e = JStr "session.idle"
  ∨ type e = JStr "error".

(** The fold rules of section 4.4, in the words of the specification: what
    one event makes of the pair (status, isComplete). *)
Inductive fold_rule (e : TaskEvent) :
    DerivedStatus * bool → DerivedStatus * bool → Prop :=
  | rule_busy st c :
      type e = JStr "session.status" → status_type e = JStr "busy" →
      fold_rule e (st, c) (Busy, c)
  | rule_idle st c :
      type e = JStr "session.status" → status_type e = JStr "idle" →
      fold_rule e (st, c) (Idle, c)
  | rule_session_idle st c :
      type e = JStr "session.idle" → fold_rule e (st, c) (Completed, true)
  | rule_error st c :
      type e = JStr "error" → fold_rule e (st, c) (Error, true)
  | rule_other st c :
      ¬ matching e → fold_rule e (st, c) (st, c).

(** The calls of [k] unsuccessful attempts of the readiness poller: each is
    a probe followed by a sleep. *)
Fixpoint attempts (sandbox : string) (ms : Z) (k : nat) : list TasksApp.Call :=
  match k with
  | 0 => []
  | S k' =>
      TasksApp.Exec sandbox TasksApp.probe_command None
      :: TasksApp.SetTimeout ms :: attempts sandbox ms k'
  end.

(** The history at which the world answers probe number [k] (from 0). *)
Definition probe_history (h : list TasksApp.Call) (sandbox : string) (ms : Z)
    (k : nat) : list TasksApp.Call :=
  h ++ attempts sandbox ms k ++ [TasksApp.Exec sandbox TasksApp.probe_command None].

(** How often a history probes the agent. *)
Fixpoint probe_calls (h : list TasksApp.Call) : nat :=
  match h with
  | [] => 0
  | TasksApp.Exec _ command _ :: h' =>
      (if String.eqb command TasksApp.probe_command then 1 else 0) + probe_calls h'
  | _ :: h' => probe_calls h'
  end.

(** The [error] property of a JSON response, and its status. *)
Definition response_error (r : TasksApp.HttpResponse) : option jsval :=
  match r with
  | TasksApp.Json (JObj m) _ => m !! "error"
  | _ => None
  end.

Definition response_status (r : TasksApp.HttpResponse) : option Z :=
  match r with
  | TasksApp.Json _ status => Some status
  | TasksApp.Stream _ _ => None
  end.

(** The response a handler returns, when it returns one. *)
Definition response_of (out : (TasksApp.HttpResponse + string) * list TasksApp.Call)
    : option TasksApp.HttpResponse :=
  match out.1 with
  | inl r => Some r
  | inr _ => None
  end.

(** The task identifier that [createTask] generates at the history [h]. *)
Definition taskId_at (w : TasksApp.World) (h : list TasksApp.Call) : string :=
  "task-" +:+ TasksApp.Date_now w h +:+ "-"
  +:+ slice 7 (TasksApp.Math_random_toString36 w h).

(** *** The claims that the code does not satisfy as they are worded *)

Import TasksApp.

(** C1 as the specification words it: an event is delivered exactly when its
    resolved session identifier is absent or is the target session. *)
Definition delivered_iff_absent_or_equal : Prop :=
  ∀ (e : TaskEvent) (S : string),
    shouldDeliver e S = true ↔
    resolved_sessionId e = JUndefined ∨ resolved_sessionId e = JStr S.

(** C3 as the specification words it: when the clone fails, the returned
    error is the diagnostic output of the clone command, verbatim. *)
Definition clone_error_is_diagnostic_output (rt : Runtime) (w : World)
    (req : CreateTaskRequest) (h : list Call) : Prop :=
  let taskId := taskId_at w h in
  let cloneResult :=
    exec_result w (h ++ [GetSandbox taskId; Exec taskId (clone_command req) None]) in
  success cloneResult = false →
  response_of (createTask rt w req h) ≫= response_error
    = Some (JStr (stderr cloneResult)).


(** C5 as the specification words it (its second case): a response that is
    not a session but matches the error envelope, with an [error] or a
    [message] field present, fails with the message of the envelope. *)
Definition envelope_message_surfaced (rt : Runtime) (w : World)
    (req : CreateTaskRequest) (h : list Call) : Prop :=
  ∀ (h3 : list Call) (m : gmap string jsval),
    let taskId := taskId_at w h in
    let h1 := h ++ [GetSandbox taskId; Exec taskId (clone_command req) None] in
    let h2 :=
      h1 ++ [StartProcess taskId "opencode serve --port 4096 --hostname 0.0.0.0"
               (Some "/workspace/repo") opencode_env] in
    let h4 :=
      h3 ++ [Exec taskId
               (curl_command rt "POST" "http://localhost:4096/session"
                  (obj [("title",
                         JStr ("Task: " +:+ substring0 50 (prompt req) +:+ "..."))]))
               None] in
    success (exec_result w h1) = true →
    waitForOpenCode w taskId 30 1000 h2 = (inl true, h3) →
    success (exec_result w h4) = true →
    JSON_parse rt (stdout (exec_result w h4)) = inl (JObj m) →
    OpenCodeSessionResponseSchema (JObj m) = None →
    is_Some (OpenCodeErrorResponseSchema (JObj m)) →
    is_Some (m !! "error") ∨ is_Some (m !! "message") →
    response_of (createTask rt w req h) ≫= response_error =
      Some (JStr ("OpenCode API error: "
                  +:+ template (or_else (prop m "error") (prop m "message")))).

(** *** Further vocabulary *)

(** [undefined] or [null]: the values a property read throws on. *)
Definition nullish (v : jsval) : Prop := v = JUndefined ∨ v = JNull.

(** An event that ends the task: [session.idle] or [error]. *)
Definition terminal (e : TaskEvent) : Prop :=
  type e = JStr "session.idle" ∨ type e = JStr "error".

(** A [tool.start] event that names its tool. *)
Definition tool_start (e : TaskEvent) : Prop :=
  type e = JStr "tool.start"
  ∧ truthy (opt_member (prop (properties e) "part") "tool") = true.

(** What a response of the worker looks like to [fetch]: [ok] for a status
    from 200 to 299, and the body that [c.json] was given as the result of
    [json()]; a stream has no JSON body. *)
Definition over_http (r : HttpResponse) : Client.Response :=
  match r with
  | Json body status =>
      {| Client.ok := (200 <=? status)%Z && (status <=? 299)%Z;
         Client.json := Some body |}
  | Stream _ _ => {| Client.ok := true; Client.json := None |}
  end.

(** The status that the page shows for a task whose record says
    [serverStatus], after the events [evs]. *)
Definition displayStatus (serverStatus : string) (evs : list TaskEvent) : string :=
  TaskPage.getDisplayStatus serverStatus (deriveStatus evs).1 (deriveStatus evs).2.

(** What the loop of [consolidateEvents] keeps, before it reads event number
    [i]: the indices of the entries grow, there are no more entries than
    events read, and text that waits to be shown started at an event that
    was read after the last entry. *)
Definition consolidated (i : Z) (st : list TaskPage.DisplayEvent * string * Z) : Prop :=
  let '(result, textAccumulator, textStartIndex) := st in
  StronglySorted Z.lt (TaskPage.index <$> result)
  ∧ (Z.of_nat (length result)
     + (if TaskPage.nonempty textAccumulator then 1 else 0) ≤ i)%Z
  ∧ if TaskPage.nonempty textAccumulator
    then (0 ≤ textStartIndex < i)%Z
         ∧ Forall (λ k, 0 ≤ k < textStartIndex)%Z (TaskPage.index <$> result)
    else textStartIndex = (-1)%Z
         ∧ Forall (λ k, 0 ≤ k < i)%Z (TaskPage.index <$> result).

(** The response 500 that [createTask] gives for an error message. *)
Definition failure (message : string) : HttpResponse :=
  Json (obj [("error", JStr message)]) 500.

(** The command that starts the agent, and the call that creates the
    session, as [createTask] makes them. *)
Definition start_agent (sandbox : string) : Call :=
  StartProcess sandbox "opencode serve --port 4096 --hostname 0.0.0.0"
    (Some "/workspace/repo") opencode_env.

Definition create_session (rt : Runtime) (sandbox : string)
    (req : CreateTaskRequest) : Call :=
  Exec sandbox
    (curl_command rt "POST" "http://localhost:4096/session"
       (obj [("title", JStr ("Task: " +:+ substring0 50 (prompt req) +:+ "..."))]))
    None.

(** What [createTask] answers once the session call has returned the JSON
    value [d], at the history [h4]. *)
Definition session_outcome (rt : Runtime) (w : World) (req : CreateTaskRequest)
    (h : list Call) (d : jsval) (h4 : list Call)
    : (HttpResponse + string) * list Call :=
  match OpenCodeSessionResponseSchema d with
  | Some sessionId =>
      (inl (Json
              (obj [("data",
                     obj [("id", JStr (taskId_at w h)); ("status", JStr "running");
                          ("repoUrl", JStr (repoUrl req));
                          ("branch", JStr (branch req));
                          ("prompt", JStr (prompt req));
                          ("sessionId", JStr sessionId);
                          ("createdAt", JStr (Date_toISOString w h));
                          ("startedAt", JStr (Date_toISOString w h4))])])
              201),
       h4 ++ [StartProcess (taskId_at w h) (message_command rt req sessionId)
                (Some "/workspace/repo") []])
  | None =>
      match OpenCodeErrorResponseSchema d with
      | Some (e, msg) =>
          if truthy (or_else e msg)
          then (inl (failure ("OpenCode API error: " +:+ template (or_else e msg))), h4)
          else (inl (failure ("Unexpected session response format: "
                              +:+ JSON_stringify rt d)), h4)
      | None =>
          (inl (failure ("Unexpected session response format: "
                         +:+ JSON_stringify rt d)), h4)
      end
  end.

(** What the outcome of a handler looks like to [fetch]: a response as
    [over_http] says; an exception that leaves the handler is answered by
    the framework with 500 and the text "Internal Server Error", which is
    no JSON. *)
Definition served (out : (HttpResponse + string) * list Call) : Client.Response :=
  match out.1 with
  | inl r => over_http r
  | inr _ => {| Client.ok := false; Client.json := None |}
  end.

(** C7 as the specification words it: the diff operation never ends in an
    error, it answers with success. *)
Definition diff_never_an_error (o : Rejecting.Outside) (taskId : string)
    (h : list Call) : Prop :=
  response_of (Rejecting.getDiff o taskId h) ≫= response_status = Some 200%Z.

(** The task record that [createTask] answers with. *)
Definition task_record (w : World) (req : CreateTaskRequest) (h h4 : list Call)
    (sessionId : string) : jsval :=
  obj [("id", JStr (taskId_at w h)); ("status", JStr "running");
       ("repoUrl", JStr (repoUrl req)); ("branch", JStr (branch req));
       ("prompt", JStr (prompt req)); ("sessionId", JStr sessionId);
       ("createdAt", JStr (Date_toISOString w h));
       ("startedAt", JStr (Date_toISOString w h4))].

(** The call that sends the prompt to the session, as [createTask] makes
    it. *)
Definition send_prompt (rt : Runtime) (sandbox : string) (req : CreateTaskRequest)
    (sessionId : string) : Call :=
  StartProcess sandbox (message_command rt req sessionId) (Some "/workspace/repo") [].

(** The run of [createTask] that creates the task: the clone resolves and
    succeeds, the start of the agent resolves, the agent is ready at the
    history [h3], the session call resolves and succeeds, its output parses
    to a value from which the session schema takes [sessionId], and the
    start of the process that sends the prompt resolves. *)
Definition creates (rt : Runtime) (o : Rejecting.Outside) (req : CreateTaskRequest)
    (h h3 : list Call) (sessionId : string) : Prop :=
  let w := Rejecting.answers o in
  let taskId := taskId_at w h in
  let h1 := h ++ [GetSandbox taskId; Exec taskId (clone_command req) None] in
  let h4 := h3 ++ [create_session rt taskId req] in
  Rejecting.exec_rejects o h1 = None
  ∧ success (exec_result w h1) = true
  ∧ Rejecting.startProcess_rejects o (h1 ++ [start_agent taskId]) = None
  ∧ Rejecting.waitForOpenCode o taskId 30 1000 (h1 ++ [start_agent taskId])
    = (inl true, h3)
  ∧ Rejecting.exec_rejects o h4 = None
  ∧ success (exec_result w h4) = true
  ∧ (∃ d, JSON_parse rt (stdout (exec_result w h4)) = inl d
          ∧ OpenCodeSessionResponseSchema d = Some sessionId)
  ∧ Rejecting.startProcess_rejects o (h4 ++ [send_prompt rt taskId req sessionId])
    = None.

(** A probe that resolves and does not find the agent ready. *)
Definition probe_fails (o : Rejecting.Outside) (h : list Call) : Prop :=
  Rejecting.exec_rejects o h = None
  ∧ probe_ok (exec_result (Rejecting.answers o) h) = false.

(** The calls of a history that start a process, by their commands. *)
Fixpoint started (h : list Call) : list string :=
  match h with
  | [] => []
  | StartProcess _ command _ _ :: h' => command :: started h'
  | _ :: h' => started h'
  end.

(** Strings one after the other. *)
Definition flat (l : list string) : string := foldr String.append "" l.

(** How a POSIX shell reads a word made of single-quoted parts and
    backslash escapes: inside single quotes every character stands for
    itself up to the closing quote; outside, a backslash makes the next
    character stand for itself. [None]: the word is not closed. *)
Fixpoint sh_word (quoted : bool) (s : string) : option string :=
  match s with
  | EmptyString => if quoted then None else Some EmptyString
  | String c s' =>
      if quoted then
        if Ascii.eqb c "'"%char then sh_word false s'
        else String c <$> sh_word true s'
      else if Ascii.eqb c "'"%char then sh_word true s'
      else if Ascii.eqb c "\"%char then
        match s' with
        | String d s'' => String d <$> sh_word false s''
        | EmptyString => None
        end
      else String c <$> sh_word false s'
  end.

End Spec.

(** ** Sample inputs *)

Module Sample.
Import JS Hook.

Definition busy_event : TaskEvent :=
  {| type := JStr "session.status";
     properties := {[ "status" := obj [("type", JStr "busy")] ]} |}.

Definition idle_event : TaskEvent :=
  {| type := JStr "session.idle"; properties := ∅ |}.

Definition delta_event : TaskEvent :=
  {| type := JStr "message.part.updated";
     properties := {[ "delta" := JStr "done" ]} |}.

(** A normalized event whose session identifier is the empty string. *)
Definition empty_session_event : TaskEvent :=
  {| type := JStr "session.idle";
     properties := {[ "sessionId" := JStr "" ]} |}.

(** An upstream event that carries both spellings of the session and message
    identifiers. *)
Definition both_spellings_properties : gmap string jsval :=
  <["sessionID" := JStr "ses_A"]>
    (<["sessionId" := JStr "ses_B"]>
       (<["messageID" := JStr "msg_A"]> {[ "messageId" := JStr "msg_B" ]})).

Definition both_spellings_event : gmap string jsval :=
  <["type" := JStr "message.updated"]>
    {[ "properties" := JObj both_spellings_properties ]}.

(** *** A runtime and some worlds *)

Import TasksApp.

(** The double quote, and a quoted string. *)
Definition dq : string := String "034"%char "".
Definition quoted (s : string) : string := dq +:+ s +:+ dq.

(** A serializer for the values of the examples (strings are printed without
    escapes, numbers as 0); [fuel] bounds the nesting. *)
Fixpoint stringify (fuel : nat) (v : jsval) : string :=
  match fuel with
  | 0 => "null"
  | S fuel' =>
      match v with
      | JUndefined | JNull => "null"
      | JBool true => "true"
      | JBool false => "false"
      | JNum _ => "0"
      | JStr s => quoted s
      | JArr l => "[" +:+ String.concat "," (stringify fuel' <$> l) +:+ "]"
      | JObj m =>
          "{" +:+ String.concat ","
                    ((λ kv, quoted kv.1 +:+ ":" +:+ stringify fuel' kv.2)
                       <$> map_to_list m)
          +:+ "}"
      end
  end.

Definition session_text : string :=
  "{" +:+ quoted "id" +:+ ":" +:+ quoted "ses_1" +:+ "}".
Definition api_error_text : string :=
  "{" +:+ quoted "error" +:+ ":" +:+ quoted "model not configured" +:+ "}".
Definition empty_error_text : string :=
  "{" +:+ quoted "error" +:+ ":" +:+ quoted "" +:+ "}".

(** An agent event of session "ses_1", the line of the event feed that
    carries it, and the chunk of the sandbox stream that carries the line. *)
Definition idle_text : string :=
  "{" +:+ quoted "type" +:+ ":" +:+ quoted "session.idle" +:+ ","
  +:+ quoted "properties" +:+ ":{" +:+ quoted "sessionID" +:+ ":"
  +:+ quoted "ses_1" +:+ "}}".

Definition idle_native : jsval :=
  obj [("type", JStr "session.idle");
       ("properties", obj [("sessionID", JStr "ses_1")])].

Definition newline : string := String "010"%char "".

Definition stdout_chunk : string := "chunk: stdout, session.idle of ses_1".
Definition stderr_chunk : string := "chunk: stderr".
Definition broken_chunk : string := "chunk: stdout, broken line".

(** [trim] on strings whose white space is ASCII: the six characters
    tab, line feed, vertical tab, form feed, carriage return and space are
    stripped at both ends. It stands for [String.prototype.trim] in the
    examples, whose texts have no other white space. *)
Fixpoint trimStart_ascii (s : string) : string :=
  match s with
  | String a s' => if Ascii.is_space a then trimStart_ascii s' else s
  | EmptyString => EmptyString
  end.

Definition trim_ascii (s : string) : string :=
  String.rev (trimStart_ascii (String.rev (trimStart_ascii s))).

(** A parser that knows the texts of the examples. *)
Definition parse (s : string) : jsval + string :=
  if String.eqb s stdout_chunk
  then inl (obj [("type", JStr "stdout");
                 ("data", JStr ("data: " +:+ idle_text +:+ newline));
                 ("timestamp", JStr "2025-01-01T00:00:00.000Z")])
  else if String.eqb s stderr_chunk
  then inl (obj [("type", JStr "stderr"); ("data", JStr "curl: (7)")])
  else if String.eqb s broken_chunk
  then inl (obj [("type", JStr "stdout"); ("data", JStr "data: {")])
  else if String.eqb s idle_text then inl idle_native
  else if String.eqb s session_text then inl (obj [("id", JStr "ses_1")])
  else if String.eqb s api_error_text
  then inl (obj [("error", JStr "model not configured")])
  else if String.eqb s empty_error_text then inl (obj [("error", JStr "")])
  else if String.eqb s "[]" then inl (JArr [])
  else inr "Unexpected token".

Definition runtime : Runtime :=
  {| JSON_parse := parse; JSON_stringify := stringify 8 |}.

Definition world_of (answer : list Call → ExecResult) : World :=
  {| exec_result := answer;
     exec_stream := λ _, ["data: {}"];
     Date_now := λ _, "1735689600000";
     Date_toISOString := λ _, "2025-01-01T00:00:00.000Z";
     Math_random_toString36 := λ _, "0.4fzyo82mvyr" |}.

(** Every command fails, with git's complaint on the error output. *)
Definition clone_fails : World :=
  world_of (λ _, {| stdout := ""; stderr := "fatal: repository not found";
                    exitCode := 128; success := false |}).

(** Every command succeeds and prints [text]. *)
Definition prints (text : string) : World :=
  world_of (λ _, {| stdout := text; stderr := ""; exitCode := 0; success := true |}).

(** The agent never comes up: the probe prints its fallback. *)
Definition never_ready : World := prints "not ready".

(** The agent is up from the third probe on. *)
Definition ready_at_third : World :=
  world_of (λ h, {| stdout := if 3 <=? Spec.probe_calls h then "[]" else "not ready";
                    stderr := ""; exitCode := 0; success := true |}).

Definition request : CreateTaskRequest :=
  {| repoUrl := "https://example.com/r.git"; branch := "main";
     prompt := "add readme" |}.

(** *** More sample inputs *)

Definition start_event : TaskEvent :=
  {| type := JStr "tool.start";
     properties :=
       {[ "part" := obj [("type", JStr "tool"); ("tool", JStr "write");
                         ("input", obj [("path", JStr "README.md")])] ]} |}.

Definition end_event : TaskEvent :=
  {| type := JStr "tool.end";
     properties := {[ "part" := obj [("output", JStr "ok")] ]} |}.

Definition error_event : TaskEvent :=
  {| type := JStr "error"; properties := ∅ |}.

(** A formatter that shows the delta of an event as text, and nothing
    else. *)
Definition delta_format (e : TaskEvent) : TaskPage.Formatted.t :=
  match prop (properties e) "delta" with
  | JStr s =>
      {| TaskPage.Formatted.label := "text"; TaskPage.Formatted.detail := s;
         TaskPage.Formatted.color := "text-foreground" |}
  | _ =>
      {| TaskPage.Formatted.label := ""; TaskPage.Formatted.detail := "";
         TaskPage.Formatted.color := "text-muted-foreground" |}
  end.

(** Every command succeeds and prints "[]", but a POST with curl fails. *)
Definition post_fails : World :=
  world_of (λ h,
    match last h with
    | Some (Exec _ command _) =>
        if includes "-X POST" command
        then {| stdout := ""; stderr := "curl: (7) Failed to connect";
                exitCode := 7; success := false |}
        else {| stdout := "[]"; stderr := ""; exitCode := 0; success := true |}
    | _ => {| stdout := "[]"; stderr := ""; exitCode := 0; success := true |}
    end).

(** A network that answers every request with the response [r] of the
    worker. *)
Definition answers (r : option HttpResponse) (_ : Client.Request)
    : option Client.Response :=
  Spec.over_http <$> r.

(** A sandbox whose [exec] always resolves, with the answers of [w]. *)
Definition resolving (w : World) : Rejecting.Outside :=
  {| Rejecting.answers := w; Rejecting.exec_rejects := λ _, None;
     Rejecting.startProcess_rejects := λ _, None |}.

(** A sandbox whose container is gone: every [exec] rejects. *)
Definition gone : Rejecting.Outside :=
  {| Rejecting.answers := prints "[]";
     Rejecting.exec_rejects := λ _, Some "Container is not running";
     Rejecting.startProcess_rejects := λ _, Some "Container is not running" |}.

(** A sandbox that answers as [agent_up] does, but in which no process can
    be started once a session exists: the start of the process that sends
    the prompt rejects. *)
Definition no_dispatch : Rejecting.Outside :=
  {| Rejecting.answers := prints session_text;
     Rejecting.exec_rejects := λ _, None;
     Rejecting.startProcess_rejects :=
       λ h, match last h with
            | Some (StartProcess _ command _ _) =>
                if includes "/message" command then Some "Process limit reached"
                else None
            | _ => None
            end |}.

(** A test for URLs that is good enough for the examples, and the
    description of a refused body. *)
Definition is_https (s : string) : bool := String.prefix "https://" s.

Definition issues (_ : CreateTaskRequest) : gmap string jsval :=
  {[ "name" := JStr "ZodError" ]}.

Definition no_prompt : CreateTaskRequest :=
  {| repoUrl := "https://example.com/r.git"; branch := "main"; prompt := "" |}.

(** A network that answers every request with what the worker made of it:
    its response, if the handler returned one. *)
Definition network (out : (HttpResponse + string) * list Call)
    (_ : Client.Request) : option Client.Response :=
  Some (Spec.served out).

(** A sandbox in which every command succeeds and prints the answer of the
    agent to the session call. *)
Definition agent_up : Rejecting.Outside := resolving (prints session_text).

End Sample.

(** ** Properties of the event subscription *)

Section HookProperties.
Import JS Hook Spec.

Lemma strict_eq_str_true v s : strict_eq_str v s = true ↔ v = JStr s.
Proof.
  destruct v; simpl; try (split; [discriminate | intros; simplify_eq]).
  rewrite String.eqb_eq. split; [by intros -> | by intros [= ->]].
Qed.

Lemma strict_eq_str_false v s : strict_eq_str v s = false ↔ v ≠ JStr s.
Proof.
  rewrite <- strict_eq_str_true. destruct (strict_eq_str v s); split; congruence.
Qed.

Lemma truthy_false v : truthy v = false ↔ falsy v.
Proof.
  split.
  - destruct v as [| |[]|f|s| |]; simpl; try discriminate.
    + constructor.
    + constructor.
    + constructor.
    + rewrite negb_false_iff, orb_true_iff.
      intros [?|?]; [by apply falsy_zero | by apply falsy_nan].
    + rewrite negb_false_iff, String.eqb_eq. intros ->. constructor.
  - induction 1; simpl; try done.
    + by rewrite H.
    + rewrite H. by rewrite orb_true_r.
Qed.

(** C1, counterexample: a normalized event whose [sessionId] is the empty
    string is delivered to the subscriber of session "ses_1", although its
    session identifier is neither absent nor equal to "ses_1". *)
Lemma empty_session_is_delivered : ¬ delivered_iff_absent_or_equal.
Proof.
  intros Hclaim.
  destruct (Hclaim Sample.empty_session_event "ses_1") as [Hd _].
  destruct (Hd eq_refl) as [H|H]; vm_compute in H; discriminate H.
Qed.

(** Such an event is what [normalize] makes of an upstream event whose
    native properties carry an empty [sessionId]. *)
Example empty_session_reaches_subscriber :
  ∃ e,
    normalize
      (obj [("type", JStr "session.idle");
            ("properties", obj [("sessionId", JStr "")])]) = Some e
    ∧ resolved_sessionId e = JStr ""
    ∧ deliver "ses_1" e [] = [e].
Proof. eexists. split; [reflexivity |]. split; reflexivity. Qed.

(** C1, amended: the subscriber receives the event (it is appended to the
    list of events) exactly when the resolved session identifier is falsy
    (absent, null, false, the empty string, zero or NaN) or is the target
    session; every other event is dropped (the list is left as it was). *)
Theorem session_filter (e : TaskEvent) (S : string) (prev : list TaskEvent) :
  (deliver S e prev = prev ++ [e] ↔
     falsy (resolved_sessionId e) ∨ resolved_sessionId e = JStr S)
  ∧ (deliver S e prev = prev ↔
     ¬ (falsy (resolved_sessionId e) ∨ resolved_sessionId e = JStr S)).
Proof.
  assert (Hsd : shouldDeliver e S = true ↔
            falsy (resolved_sessionId e) ∨ resolved_sessionId e = JStr S).
  { unfold shouldDeliver, resolved_sessionId.
    rewrite orb_true_iff, negb_true_iff, truthy_false, strict_eq_str_true.
    done. }
  unfold deliver. destruct (shouldDeliver e S) eqn:Hs.
  - split.
    + split; [intros _; by apply Hsd | done].
    + split.
      * intros Heq. apply (f_equal length) in Heq.
        rewrite length_app in Heq. simpl in Heq. lia.
      * intros Hn. destruct Hn. by apply Hsd.
  - assert (Hno : ¬ (falsy (resolved_sessionId e) ∨ resolved_sessionId e = JStr S)).
    { rewrite <- Hsd. congruence. }
    split.
    + split; [| done].
      intros Heq. apply (f_equal length) in Heq.
      rewrite length_app in Heq. simpl in Heq. lia.
    + done.
Qed.

(** What [normalize] makes of an upstream event whose [properties] is an
    object. *)
Lemma normalize_object (o m : gmap string jsval) :
  o !! "properties" = Some (JObj m) →
  normalize (JObj o) =
    Some {| type := prop o "type";
            properties :=
              m ∪ <["part" := prop m "part"]>
                    (<["messageId" :=
                         or_else (prop m "messageID")
                           (opt_member (prop m "part") "messageID")]>
                       {["sessionId" :=
                           or_else (prop m "sessionID")
                             (opt_member (prop m "part") "sessionID")]}) |}.
Proof.
  intros Hp. unfold normalize. simpl.
  assert (Hprop : prop o "properties" = JObj m) by (unfold prop; by rewrite Hp).
  rewrite !Hprop. reflexivity.
Qed.

(** C10: the native properties are spread after the resolved [sessionId]
    and [messageId], so a native lower-case "sessionId" (or "messageId")
    overwrites the resolved value, and the session filter tests the native
    value; without such a key the resolution from [sessionID] and
    [part.sessionID] stands. *)
Theorem native_sessionId_overwrites (o m : gmap string jsval)
    (Hprops : o !! "properties" = Some (JObj m)) :
  ∃ te, normalize (JObj o) = Some te
    ∧ (∀ v, m !! "sessionId" = Some v →
         prop (properties te) "sessionId" = v
         ∧ ∀ S, shouldDeliver te S = negb (truthy v) || strict_eq_str v S)
    ∧ (∀ v, m !! "messageId" = Some v → prop (properties te) "messageId" = v)
    ∧ (m !! "sessionId" = None →
         prop (properties te) "sessionId" =
           or_else (prop m "sessionID") (opt_member (prop m "part") "sessionID"))
    ∧ (m !! "messageId" = None →
         prop (properties te) "messageId" =
           or_else (prop m "messageID") (opt_member (prop m "part") "messageID")).
Proof.
  eexists. split; [by apply normalize_object |]. simpl.
  repeat split.
  - unfold prop. by erewrite lookup_union_Some_l.
  - intros S. unfold shouldDeliver, prop. simpl.
    by erewrite lookup_union_Some_l.
  - intros v Hv. unfold prop at 1. by erewrite lookup_union_Some_l.
  - intros Hn. unfold prop at 1. rewrite lookup_union_r by done.
    rewrite lookup_insert_ne by done. rewrite lookup_insert_ne by done.
    by rewrite lookup_singleton_eq.
  - intros Hn. unfold prop at 1. rewrite lookup_union_r by done.
    rewrite lookup_insert_ne by done. by rewrite lookup_insert_eq.
Qed.

(** The upstream event with [sessionID] "ses_A" and [sessionId] "ses_B" is
    normalized to session "ses_B". *)
Lemma native_sessionId_overwrites_witness :
  ∃ te, normalize (JObj Sample.both_spellings_event) = Some te
    ∧ prop (properties te) "sessionId" = JStr "ses_B"
    ∧ prop (properties te) "messageId" = JStr "msg_B"
    ∧ shouldDeliver te "ses_A" = false.
Proof.
  destruct (native_sessionId_overwrites Sample.both_spellings_event
              Sample.both_spellings_properties eq_refl)
    as (te & Hn & Hs & Hm & _).
  exists te. split; [exact Hn |].
  destruct (Hs (JStr "ses_B") eq_refl) as [Hv Hf].
  split; [exact Hv |]. split; [exact (Hm (JStr "msg_B") eq_refl) |].
  rewrite Hf. reflexivity.
Defined.

(** Whatever [onmessage] adds to the list of events went through the
    normalization and the session filter; everything else leaves the list as
    it was. *)
Lemma onmessage_through_filter (rt : Runtime) (trim : string → string)
    (S data : string) (prev : list TaskEvent) :
  onmessage rt trim S data prev = prev
  ∨ ∃ ev e,
      normalize ev = Some e ∧ onmessage rt trim S data prev = deliver S e prev.
Proof.
  unfold onmessage, onmessage_try.
  destruct (JSON_parse rt data) as [wrapper|]; [| by left].
  destruct (member wrapper "type") as [wtype|]; [| by left].
  destruct (member wrapper "data") as [wdata|]; [| by left].
  cbn [mbind option_bind].
  destruct (negb (strict_eq_str wtype "stdout") || negb (truthy wdata));
    [by left |].
  destruct wdata as [| | | |d| |]; try by left.
  cbv zeta.
  destruct (negb (startsWith "data: " (trim d))); [by left |].
  destruct (String.eqb (slice 6 (trim d)) ""); [by left |].
  destruct (JSON_parse rt (slice 6 (trim d))) as [ev|]; [| by left].
  destruct (normalize ev) as [e|] eqn:He; [| by left].
  right. by exists ev, e.
Qed.

(** A line of the agent's feed inside a chunk of the sandbox stream reaches
    the subscriber of its session, and no other; chunks of the error output
    and broken lines are dropped. *)
Example onmessage_samples :
  length (onmessage Sample.runtime Sample.trim_ascii "ses_1" Sample.stdout_chunk []) = 1
  ∧ deriveStatus (onmessage Sample.runtime Sample.trim_ascii "ses_1" Sample.stdout_chunk [])
    = (Completed, true)
  ∧ onmessage Sample.runtime Sample.trim_ascii "ses_2" Sample.stdout_chunk [] = []
  ∧ onmessage Sample.runtime Sample.trim_ascii "ses_1" Sample.stderr_chunk [] = []
  ∧ onmessage Sample.runtime Sample.trim_ascii "ses_1" Sample.broken_chunk [] = []
  ∧ onmessage Sample.runtime Sample.trim_ascii "ses_1" "no json" [] = [].
Proof. repeat split; vm_compute; reflexivity. Qed.

(** *** Status derivation *)

Lemma derive_loop_app evs1 evs2 st c :
  derive_loop (evs1 ++ evs2) st c =
    let '(st', c') := derive_loop evs1 st c in derive_loop evs2 st' c'.
Proof.
  revert st c. induction evs1 as [|e evs1 IH]; intros st c; simpl.
  - reflexivity.
  - destruct (derive_body e st c) as [st' c']. apply IH.
Qed.

Lemma deriveStatus_snoc evs e :
  deriveStatus (evs ++ [e]) =
    derive_body e (deriveStatus evs).1 (deriveStatus evs).2.
Proof.
  unfold deriveStatus. rewrite derive_loop_app.
  destruct (derive_loop evs Unknown false) as [st c]. simpl.
  by destruct (derive_body e st c).
Qed.

(** The loop body does what the fold rules say. *)
Lemma derive_body_rule e st c : fold_rule e (st, c) (derive_body e st c).
Proof.
  unfold derive_body.
  destruct (strict_eq_str (type e) "session.status") eqn:Hty.
  - apply strict_eq_str_true in Hty.
    destruct (strict_eq_str _ "busy") eqn:Hb.
    { apply strict_eq_str_true in Hb. by apply rule_busy. }
    destruct (strict_eq_str _ "idle") eqn:Hi.
    { apply strict_eq_str_true in Hi. by apply rule_idle. }
    apply strict_eq_str_false in Hb, Hi.
    apply rule_other. unfold matching, status_type. rewrite Hty.
    intros [[_ [?|?]]|[?|?]]; congruence.
  - apply strict_eq_str_false in Hty.
    destruct (strict_eq_str (type e) "session.idle") eqn:Hidle.
    { apply strict_eq_str_true in Hidle. by apply rule_session_idle. }
    destruct (strict_eq_str (type e) "error") eqn:Herr.
    { apply strict_eq_str_true in Herr. by apply rule_error. }
    apply strict_eq_str_false in Hidle, Herr.
    apply rule_other. unfold matching. intros [[? _]|[?|?]]; congruence.
Qed.

(** The fold rules leave no choice. *)
Lemma fold_rule_functional e acc acc1 acc2 :
  fold_rule e acc acc1 → fold_rule e acc acc2 → acc1 = acc2.
Proof.
  intros H1 H2.
  destruct H1; inversion H2; subst; try reflexivity; try congruence;
    match goal with
    | Hn : ¬ matching e |- _ => exfalso; apply Hn; unfold matching; tauto
    end.
Qed.

(** C2: [deriveStatus] is a left fold over the events in their order, from
    (unknown, false); each event acts by the fold rules of section 4.4
    (session.status busy, session.status idle, session.idle, error, and no
    change for every other event), which determine the result; without a
    matching event the result is (unknown, false). *)
Theorem deriveStatus_is_fold :
  deriveStatus [] = (Unknown, false)
  ∧ (∀ evs e, fold_rule e (deriveStatus evs) (deriveStatus (evs ++ [e])))
  ∧ (∀ evs e acc, fold_rule e (deriveStatus evs) acc →
       deriveStatus (evs ++ [e]) = acc)
  ∧ (∀ evs,
       deriveStatus evs =
         fold_left (λ acc e, derive_body e acc.1 acc.2) evs (Unknown, false))
  ∧ (∀ evs e st c, type e ≠ JStr "session.status" →
       type e ≠ JStr "session.idle" → type e ≠ JStr "error" →
       deriveStatus evs = (st, c) → deriveStatus (evs ++ [e]) = (st, c))
  ∧ (∀ evs, Forall (λ e, ¬ matching e) evs → deriveStatus evs = (Unknown, false)).
Proof.
  assert (Hstep : ∀ evs e, fold_rule e (deriveStatus evs) (deriveStatus (evs ++ [e]))).
  { intros evs e. rewrite deriveStatus_snoc.
    destruct (deriveStatus evs) as [st c]. apply derive_body_rule. }
  split; [reflexivity |]. split; [exact Hstep |]. split; [| split; [| split]].
  - intros evs e acc Hacc. eapply fold_rule_functional; [apply Hstep | exact Hacc].
  - intros evs. induction evs as [|e evs IH] using rev_ind; [reflexivity |].
    by rewrite deriveStatus_snoc, fold_left_app, <- IH.
  - intros evs e st c H1 H2 H3 Hd.
    eapply fold_rule_functional; [apply Hstep |].
    rewrite Hd. apply rule_other. unfold matching.
    intros [[? _]|[?|?]]; congruence.
  - intros evs. induction evs as [|e evs IH] using rev_ind; [reflexivity |].
    intros [Hevs He]%Forall_app. inversion He as [|? ? Hne _]; subst.
    eapply fold_rule_functional; [apply Hstep |].
    rewrite (IH Hevs). apply rule_other. exact Hne.
Qed.

(** Once set, [isComplete] stays: the loop never assigns [false] to it. *)
Lemma derive_loop_complete evs st :
  (derive_loop evs st true).2 = true.
Proof.
  revert st. induction evs as [|e evs IH]; intros st; [reflexivity |].
  simpl. unfold derive_body.
  repeat match goal with |- context [if ?b then _ else _] => destruct b end;
    apply IH.
Qed.

(** C8: after a session.status event that says busy and a session.idle
    event the derived status is (completed, true), and [isComplete] is still
    true after any further events that are neither session.idle nor error. *)
Theorem terminal_status_monotone (e1 e2 : TaskEvent) (ext : list TaskEvent)
    (Hbusy : type e1 = JStr "session.status" ∧ status_type e1 = JStr "busy")
    (Hidle : type e2 = JStr "session.idle")
    (Hext : Forall (λ e, type e ≠ JStr "session.idle" ∧ type e ≠ JStr "error") ext) :
  deriveStatus [e1; e2] = (Completed, true)
  ∧ (deriveStatus ([e1; e2] ++ ext)).2 = true.
Proof.
  destruct Hbusy as [Hty Hst].
  assert (Hfirst : deriveStatus [e1; e2] = (Completed, true)).
  { unfold deriveStatus. simpl. unfold derive_body, status_type in *.
    rewrite Hty, Hst, Hidle. reflexivity. }
  split; [exact Hfirst |].
  unfold deriveStatus in *. rewrite derive_loop_app, Hfirst.
  apply derive_loop_complete.
Qed.

(** [session.status{busy}], [session.idle], then a text delta. *)
Lemma terminal_status_monotone_witness :
  deriveStatus [Sample.busy_event; Sample.idle_event] = (Completed, true)
  ∧ (deriveStatus ([Sample.busy_event; Sample.idle_event] ++ [Sample.delta_event])).2
    = true.
Proof.
  apply (terminal_status_monotone Sample.busy_event Sample.idle_event
           [Sample.delta_event]).
  - split; reflexivity.
  - reflexivity.
  - repeat constructor; discriminate.
Defined.

End HookProperties.

(** ** Properties of the worker *)

Section WorkerProperties.
Import JS TasksApp Spec.
Context (rt : Runtime) (w : World).

(** *** The monad *)


Lemma bind_thrown {A B} (m : M A) (k : A → M B) h e h' :
  m h = (inr e, h') → bind m k h = (inr e, h').
Proof. unfold bind. by intros ->. Qed.

(** *** The readiness poller *)

Lemma waitForOpenCode_step sandbox n ms h :
  waitForOpenCode w sandbox (S n) ms h =
    let h1 := h ++ [Exec sandbox probe_command None] in
    if probe_ok (exec_result w h1) then (inl true, h1)
    else waitForOpenCode w sandbox n ms (h1 ++ [SetTimeout ms]).
Proof.
  simpl. unfold bind, exec, sleep, ret. simpl.
  by destruct (probe_ok _).
Qed.

Lemma probe_history_0 h sandbox ms :
  probe_history h sandbox ms 0 = h ++ [Exec sandbox probe_command None].
Proof. reflexivity. Qed.

Lemma probe_history_S h sandbox ms k :
  probe_history h sandbox ms (S k) =
    probe_history ((h ++ [Exec sandbox probe_command None]) ++ [SetTimeout ms])
      sandbox ms k.
Proof. unfold probe_history. simpl. by rewrite <- !app_assoc. Qed.

Lemma attempts_S h sandbox ms k :
  h ++ attempts sandbox ms (S k) =
    ((h ++ [Exec sandbox probe_command None]) ++ [SetTimeout ms])
    ++ attempts sandbox ms k.
Proof. simpl. by rewrite <- !app_assoc. Qed.

Lemma probe_calls_app h1 h2 :
  probe_calls (h1 ++ h2) = probe_calls h1 + probe_calls h2.
Proof.
  induction h1 as [|c h1 IH]; [reflexivity |].
  destruct c; simpl; rewrite IH; lia.
Qed.

Lemma probe_calls_attempts sandbox ms k :
  probe_calls (attempts sandbox ms k) = k.
Proof. induction k as [|k IH]; [reflexivity |]. simpl. by rewrite IH. Qed.

Lemma waitForOpenCode_exhausted sandbox ms n h :
  (∀ k, k < n → probe_ok (exec_result w (probe_history h sandbox ms k)) = false) →
  waitForOpenCode w sandbox n ms h = (inl false, h ++ attempts sandbox ms n).
Proof.
  revert h. induction n as [|n IH]; intros h Hfail.
  - simpl. by rewrite app_nil_r.
  - rewrite waitForOpenCode_step. cbv zeta.
    rewrite <- probe_history_0 with (ms := ms), (Hfail 0) by lia.
    rewrite probe_history_0, attempts_S. apply IH.
    intros k Hk. rewrite <- probe_history_S. apply Hfail. lia.
Qed.

Lemma waitForOpenCode_first_success sandbox ms n k h :
  k < n →
  (∀ j, j < k → probe_ok (exec_result w (probe_history h sandbox ms j)) = false) →
  probe_ok (exec_result w (probe_history h sandbox ms k)) = true →
  waitForOpenCode w sandbox n ms h = (inl true, probe_history h sandbox ms k).
Proof.
  revert h k. induction n as [|n IH]; intros h k Hk Hfail Hok; [lia |].
  rewrite waitForOpenCode_step. cbv zeta.
  destruct k as [|k].
  - rewrite probe_history_0 in Hok. by rewrite Hok.
  - rewrite <- probe_history_0 with (ms := ms), (Hfail 0) by lia.
    rewrite probe_history_0, probe_history_S. apply IH; [lia | |].
    + intros j Hj. rewrite <- probe_history_S. apply Hfail. lia.
    + by rewrite <- probe_history_S.
Qed.

(** C4: [waitForOpenCode] probes at most [maxAttempts] times and sleeps
    [intervalMs] after each unsuccessful probe; it returns true at the first
    probe that succeeds, and false when [maxAttempts] probes have failed.
    With 3 attempts and a probe that never succeeds, it probes exactly three
    times and returns false. *)
Theorem readiness_budget (sandbox : string) (intervalMs : Z) (h : list Call) :
  (∀ maxAttempts k, k < maxAttempts →
     (∀ j, j < k →
        probe_ok (exec_result w (probe_history h sandbox intervalMs j)) = false) →
     probe_ok (exec_result w (probe_history h sandbox intervalMs k)) = true →
     waitForOpenCode w sandbox maxAttempts intervalMs h =
       (inl true, probe_history h sandbox intervalMs k)
     ∧ probe_calls (attempts sandbox intervalMs k
                    ++ [Exec sandbox probe_command None]) = S k)
  ∧ (∀ maxAttempts,
       (∀ k, k < maxAttempts →
          probe_ok (exec_result w (probe_history h sandbox intervalMs k)) = false) →
       waitForOpenCode w sandbox maxAttempts intervalMs h =
         (inl false, h ++ attempts sandbox intervalMs maxAttempts)
       ∧ probe_calls (attempts sandbox intervalMs maxAttempts) = maxAttempts)
  ∧ ((∀ k, k < 3 →
        probe_ok (exec_result w (probe_history h sandbox intervalMs k)) = false) →
     waitForOpenCode w sandbox 3 intervalMs h =
       (inl false,
        h ++ [Exec sandbox probe_command None; SetTimeout intervalMs;
              Exec sandbox probe_command None; SetTimeout intervalMs;
              Exec sandbox probe_command None; SetTimeout intervalMs])).
Proof.
  split; [| split].
  - intros n k Hk Hfail Hok. split.
    + by apply waitForOpenCode_first_success.
    + rewrite probe_calls_app, probe_calls_attempts. simpl. lia.
  - intros n Hfail. split.
    + by apply waitForOpenCode_exhausted.
    + apply probe_calls_attempts.
  - intros Hfail. by rewrite (waitForOpenCode_exhausted sandbox intervalMs 3 h).
Qed.

(** *** Task creation *)

Lemma history_two (h : list Call) a b : h ++ [a; b] = (h ++ [a]) ++ [b].
Proof. by rewrite <- app_assoc. Qed.

(** C3, amended: when the clone fails, the handler has asked for the sandbox
    and run the clone command and nothing else (no process is started, the
    agent is not probed, no session is created), and it answers 500 with the
    error "Failed to clone repository: " followed by the diagnostic output
    of the clone command. *)
Theorem clone_failure_short_circuit (req : CreateTaskRequest) (h : list Call) :
  let taskId := taskId_at w h in
  let h1 := h ++ [GetSandbox taskId; Exec taskId (clone_command req) None] in
  success (exec_result w h1) = false →
  createTask rt w req h =
    (inl (Json
            (obj [("error",
                   JStr ("Failed to clone repository: " +:+ stderr (exec_result w h1)))])
            500),
     h1).
Proof.
  intros taskId h1 Hfail. subst h1. rewrite history_two in *.
  unfold createTask, try_catch, createTask_try.
  unfold bind, now_ms, random36, now_iso, getSandbox, exec. cbv zeta.
  fold (taskId_at w h). fold taskId. rewrite Hfail. reflexivity.
Qed.

(** *** The event stream *)


(** *** Diff *)

Lemma or_else_string s : or_else (JStr s) (JStr "") = JStr s.
Proof.
  unfold or_else. simpl. destruct (String.eqb s "") eqn:He; [| reflexivity].
  apply String.eqb_eq in He. by subst.
Qed.

(** *** Abort *)

Lemma curl_command_no_body method url :
  curl_command rt method url JUndefined =
    "curl -s -X " +:+ method +:+ " -H 'Content-Type: application/json' '"
    +:+ url +:+ "'".
Proof. reflexivity. Qed.



(** *** Session creation *)

(** The session schema accepts exactly the objects with a string [id]. *)
Lemma session_schema_accepts d id :
  OpenCodeSessionResponseSchema d = Some id ↔
  ∃ m, d = JObj m ∧ m !! "id" = Some (JStr id).
Proof.
  unfold OpenCodeSessionResponseSchema. split.
  - destruct d as [| | | | | |m]; try discriminate.
    destruct (m !! "id") as [[| | | |s| |]|] eqn:Hid; try discriminate.
    intros [= ->]. by exists m.
  - intros (m & -> & ->). reflexivity.
Qed.

(** The error schema accepts exactly the objects whose [error] and [message]
    are each a string or not there. *)
Lemma error_schema_accepts d e msg :
  OpenCodeErrorResponseSchema d = Some (e, msg) ↔
  ∃ m, d = JObj m
    ∧ e = prop m "error" ∧ msg = prop m "message"
    ∧ (e = JUndefined ∨ ∃ s, e = JStr s)
    ∧ (msg = JUndefined ∨ ∃ s, msg = JStr s).
Proof.
  unfold OpenCodeErrorResponseSchema, optional_string. split.
  - destruct d as [| | | | | |m]; try discriminate.
    destruct (prop m "error") eqn:He; try discriminate;
      destruct (prop m "message") eqn:Hm; try discriminate;
      simpl; intros [= <- <-]; exists m; rewrite He, Hm; eauto 10.
  - intros (m & -> & -> & -> & [He | [s He]] & [Hm | [s' Hm]]);
      rewrite He, Hm; reflexivity.
Qed.

(** C5, amended: when the repository is cloned, the agent is ready and the
    session-creation call returns JSON, the parsed response [d] is validated
    in three cases. (1) [d] matches the session schema: the task is created
    with that session id (the prompt is dispatched, the answer is 201).
    (2) [d] does not, but matches the error envelope and its [error] or else
    its [message] is a non-empty string: the answer is 500 with "OpenCode API
    error: " and that string. (3) Otherwise ([d] matches neither schema, or
    the envelope carries no non-empty [error] or [message]): the answer is
    500 with "Unexpected session response format: " and [d] serialized. *)
Theorem session_response_validation (req : CreateTaskRequest) (h h3 : list Call)
    (d : jsval) :
  let taskId := taskId_at w h in
  let h1 := h ++ [GetSandbox taskId; Exec taskId (clone_command req) None] in
  let h2 :=
    h1 ++ [StartProcess taskId "opencode serve --port 4096 --hostname 0.0.0.0"
             (Some "/workspace/repo") opencode_env] in
  let h4 :=
    h3 ++ [Exec taskId
             (curl_command rt "POST" "http://localhost:4096/session"
                (obj [("title",
                       JStr ("Task: " +:+ substring0 50 (prompt req) +:+ "..."))]))
             None] in
  success (exec_result w h1) = true →
  waitForOpenCode w taskId 30 1000 h2 = (inl true, h3) →
  success (exec_result w h4) = true →
  JSON_parse rt (stdout (exec_result w h4)) = inl d →
  (∀ sessionId, OpenCodeSessionResponseSchema d = Some sessionId →
     createTask rt w req h =
       (inl (Json
               (obj [("data",
                      obj [("id", JStr taskId); ("status", JStr "running");
                           ("repoUrl", JStr (repoUrl req));
                           ("branch", JStr (branch req));
                           ("prompt", JStr (prompt req));
                           ("sessionId", JStr sessionId);
                           ("createdAt", JStr (Date_toISOString w h));
                           ("startedAt", JStr (Date_toISOString w h4))])])
               201),
        h4 ++ [StartProcess taskId (message_command rt req sessionId)
                 (Some "/workspace/repo") []]))
  ∧ (∀ e msg, OpenCodeSessionResponseSchema d = None →
       OpenCodeErrorResponseSchema d = Some (e, msg) →
       truthy (or_else e msg) = true →
       createTask rt w req h =
         (inl (Json
                 (obj [("error",
                        JStr ("OpenCode API error: " +:+ template (or_else e msg)))])
                 500),
          h4))
  ∧ (OpenCodeSessionResponseSchema d = None →
     (OpenCodeErrorResponseSchema d = None
      ∨ ∃ e msg, OpenCodeErrorResponseSchema d = Some (e, msg)
                 ∧ truthy (or_else e msg) = false) →
     createTask rt w req h =
       (inl (Json
               (obj [("error",
                      JStr ("Unexpected session response format: "
                            +:+ JSON_stringify rt d))])
               500),
        h4)).
Proof.
  intros taskId h1 h2 h4 Hclone Hready Hcurl Hparse.
  subst h1 h2 h4. rewrite history_two in *.
  set (h4 := h3 ++ [Exec taskId
                (curl_command rt "POST" "http://localhost:4096/session"
                   (obj [("title",
                          JStr ("Task: " +:+ substring0 50 (prompt req) +:+ "..."))]))
                None]) in *.
  set (unexpected :=
         (inl (Json
                 (obj [("error",
                        JStr ("Unexpected session response format: "
                              +:+ JSON_stringify rt d))])
                 500) : HttpResponse + string, h4)).
  assert (Hrun : createTask rt w req h =
    match OpenCodeSessionResponseSchema d with
    | Some sessionId =>
        (inl (Json
                (obj [("data",
                       obj [("id", JStr taskId); ("status", JStr "running");
                            ("repoUrl", JStr (repoUrl req));
                            ("branch", JStr (branch req));
                            ("prompt", JStr (prompt req));
                            ("sessionId", JStr sessionId);
                            ("createdAt", JStr (Date_toISOString w h));
                            ("startedAt", JStr (Date_toISOString w h4))])])
                201),
         h4 ++ [StartProcess taskId (message_command rt req sessionId)
                  (Some "/workspace/repo") []])
    | None =>
        match OpenCodeErrorResponseSchema d with
        | Some (e, msg) =>
            if truthy (or_else e msg)
            then (inl (Json
                         (obj [("error",
                                JStr ("OpenCode API error: "
                                      +:+ template (or_else e msg)))])
                         500),
                  h4)
            else unexpected
        | None => unexpected
        end
    end).
  { unfold createTask, try_catch, createTask_try, curlJson.
    unfold bind, ret, throw, now_ms, random36, now_iso, getSandbox, exec,
      startProcess.
    cbv beta iota zeta. fold (taskId_at w h). fold taskId.
    rewrite Hclone. cbv beta iota zeta delta [negb].
    rewrite Hready. cbv beta iota zeta delta [negb].
    fold h4. rewrite Hcurl. cbv beta iota zeta delta [negb].
    rewrite Hparse. cbv beta iota zeta delta [data error].
    destruct (OpenCodeSessionResponseSchema d) as [sid|]; [reflexivity |].
    destruct (OpenCodeErrorResponseSchema d) as [[e msg]|]; [| reflexivity].
    by destruct (truthy (or_else e msg)). }
  rewrite Hrun. split; [| split].
  - intros sid ->. reflexivity.
  - intros e msg -> -> ->. reflexivity.
  - intros -> [-> | (e & msg & -> & ->)]; reflexivity.
Qed.

End WorkerProperties.

(** ** The properties on sample inputs *)

Section Samples.
Import JS Hook TasksApp Spec.

Let tid : string := "task-1735689600000-82mvyr".

(** The history of a bootstrap whose first probe succeeds, up to that probe. *)
Let ready_history : list Call :=
  [GetSandbox tid; Exec tid (clone_command Sample.request) None;
   StartProcess tid "opencode serve --port 4096 --hostname 0.0.0.0"
     (Some "/workspace/repo") opencode_env;
   Exec tid probe_command None].

(** Busy, then a text delta, then idle: the fold rules applied one by one. *)
Lemma deriveStatus_is_fold_witness :
  deriveStatus [Sample.busy_event] = (Busy, false)
  ∧ deriveStatus [Sample.busy_event; Sample.delta_event] = (Busy, false)
  ∧ deriveStatus [Sample.busy_event; Sample.delta_event; Sample.idle_event]
    = (Completed, true)
  ∧ deriveStatus [Sample.delta_event; Sample.delta_event] = (Unknown, false).
Proof.
  destruct deriveStatus_is_fold as (Hnil & _ & Hrule & _ & Hother & Hnone).
  split; [| split; [| split]].
  - apply (Hrule [] Sample.busy_event). rewrite Hnil.
    apply rule_busy; reflexivity.
  - apply (Hother [Sample.busy_event] Sample.delta_event);
      [discriminate | discriminate | discriminate | reflexivity].
  - apply (Hrule [Sample.busy_event; Sample.delta_event] Sample.idle_event).
    by apply (rule_session_idle Sample.idle_event Busy false).
  - apply Hnone. repeat constructor.
    all: intros [[Hty _]|[Hty|Hty]]; discriminate Hty.
Defined.

(** C3, counterexample: git says "fatal: repository not found"; the error of
    the response is not that text. *)
Lemma clone_error_has_prefix :
  ¬ clone_error_is_diagnostic_output Sample.runtime Sample.clone_fails
      Sample.request [].
Proof.
  intros Hclaim. specialize (Hclaim eq_refl).
  vm_compute in Hclaim. discriminate Hclaim.
Qed.

(** A clone that fails: two calls, and the answer 500. *)
Lemma clone_failure_short_circuit_witness :
  createTask Sample.runtime Sample.clone_fails Sample.request [] =
    (inl (Json
            (obj [("error",
                   JStr "Failed to clone repository: fatal: repository not found")])
            500),
     [GetSandbox tid;
      Exec tid
        "git clone --branch main --single-branch https://example.com/r.git /workspace/repo"
        None]).
Proof.
  exact (clone_failure_short_circuit Sample.runtime Sample.clone_fails
           Sample.request [] eq_refl).
Defined.

(** Three attempts at an agent that never comes up; thirty at one that is up
    from the third probe on. *)
Lemma readiness_budget_witness :
  waitForOpenCode Sample.never_ready "task-1" 3 0 [] =
    (inl false,
     [Exec "task-1" probe_command None; SetTimeout 0;
      Exec "task-1" probe_command None; SetTimeout 0;
      Exec "task-1" probe_command None; SetTimeout 0])
  ∧ probe_calls (attempts "task-1" 0 3) = 3
  ∧ waitForOpenCode Sample.ready_at_third "task-1" 30 1000 [] =
      (inl true,
       [Exec "task-1" probe_command None; SetTimeout 1000;
        Exec "task-1" probe_command None; SetTimeout 1000;
        Exec "task-1" probe_command None]).
Proof.
  destruct (readiness_budget Sample.never_ready "task-1" 0 []) as (_ & Hn & H3).
  destruct (readiness_budget Sample.ready_at_third "task-1" 1000 []) as (Hk & _).
  assert (Hnever : ∀ k, k < 3 →
            probe_ok (exec_result Sample.never_ready
                        (probe_history [] "task-1" 0 k)) = false).
  { intros k _. reflexivity. }
  split; [exact (H3 Hnever) |]. split; [exact (proj2 (Hn 3 Hnever)) |].
  refine (proj1 (Hk 30 2 _ _ _)).
  - lia.
  - intros [|[|j]] Hj; [reflexivity | reflexivity | lia].
  - reflexivity.
Defined.

(** C5, counterexample: the agent answers with an error envelope whose
    [error] is the empty string; the field is present, and the failure is
    the generic one. *)
Lemma empty_error_is_unexpected :
  ¬ envelope_message_surfaced Sample.runtime
      (Sample.prints Sample.empty_error_text) Sample.request [].
Proof.
  intros Hclaim.
  specialize (Hclaim ready_history (list_to_map [("error", JStr "")])
                eq_refl eq_refl eq_refl eq_refl eq_refl
                (mk_is_Some _ _ eq_refl)
                (or_introl (mk_is_Some _ _ eq_refl))).
  vm_compute in Hclaim. discriminate Hclaim.
Qed.

(** A session, an error envelope, and a response that is neither. *)
Lemma session_response_validation_witness :
  response_of
    (createTask Sample.runtime (Sample.prints Sample.session_text) Sample.request [])
    ≫= response_status = Some 201%Z
  ∧ response_of
      (createTask Sample.runtime (Sample.prints Sample.api_error_text)
         Sample.request [])
      ≫= response_error = Some (JStr "OpenCode API error: model not configured")
  ∧ response_of
      (createTask Sample.runtime (Sample.prints "[]") Sample.request [])
      ≫= response_error = Some (JStr "Unexpected session response format: []").
Proof.
  split; [| split].
  - destruct (session_response_validation Sample.runtime
                (Sample.prints Sample.session_text) Sample.request []
                ready_history (obj [("id", JStr "ses_1")])
                eq_refl eq_refl eq_refl eq_refl) as (Hsession & _ & _).
    rewrite (Hsession "ses_1" eq_refl). reflexivity.
  - destruct (session_response_validation Sample.runtime
                (Sample.prints Sample.api_error_text) Sample.request []
                ready_history (obj [("error", JStr "model not configured")])
                eq_refl eq_refl eq_refl eq_refl) as (_ & Henvelope & _).
    rewrite (Henvelope (JStr "model not configured") JUndefined
               eq_refl eq_refl eq_refl).
    reflexivity.
  - destruct (session_response_validation Sample.runtime
                (Sample.prints "[]") Sample.request []
                ready_history (JArr [])
                eq_refl eq_refl eq_refl eq_refl) as (_ & _ & Hneither).
    rewrite (Hneither eq_refl (or_introl eq_refl)). reflexivity.
Defined.



End Samples.

(** ** Further properties of the event subscription *)

Section SubscriptionProperties.
Import JS Hook Spec.

Lemma deliver_appends S e (prev : list TaskEvent) :
  ∃ tl, deliver S e prev = prev ++ tl ∧ length tl ≤ 1.
Proof.
  unfold deliver. destruct (shouldDeliver e S).
  - exists [e]. split; [reflexivity | simpl; lia].
  - exists []. split; [by rewrite app_nil_r | simpl; lia].
Qed.

(** X1: a message never removes, changes or reorders the events that are
    already there: the new list is the old one, followed by at most one
    event. *)
Theorem onmessage_appends (rt : Runtime) (trim : string → string) (S data : string)
    (prev : list TaskEvent) :
  ∃ tl, onmessage rt trim S data prev = prev ++ tl ∧ length tl ≤ 1.
Proof.
  destruct (onmessage_through_filter rt trim S data prev)
    as [Hsame | (ev & e & _ & He)].
  - exists []. rewrite Hsame. split; [by rewrite app_nil_r | simpl; lia].
  - rewrite He. apply deliver_appends.
Qed.

Lemma onmessage_wrapper (rt : Runtime) (trim : string → string) (S data : string)
    (prev : list TaskEvent) (wrapper wtype wdata : jsval) :
  JSON_parse rt data = inl wrapper →
  member wrapper "type" = Some wtype →
  member wrapper "data" = Some wdata →
  onmessage rt trim S data prev =
    default prev
      (if negb (strict_eq_str wtype "stdout") || negb (truthy wdata) then Some prev
       else
         match wdata with
         | JStr d =>
             if negb (startsWith "data: " (trim d)) then Some prev
             else if String.eqb (slice 6 (trim d)) "" then Some prev
             else
               match JSON_parse rt (slice 6 (trim d)) with
               | inr _ => None
               | inl openCodeEvent =>
                   taskEvent ← normalize openCodeEvent;
                   Some (deliver S taskEvent prev)
               end
         | _ => None
         end).
Proof.
  intros Hp Ht Hd. unfold onmessage, onmessage_try. rewrite Hp, Ht.
  cbn [mbind option_bind]. rewrite Hd. cbn [mbind option_bind].
  reflexivity.
Qed.

(** X2: a message that cannot be used leaves the events as they are, for
    every [trim]: one that is not JSON, one whose parsed value is [null],
    one that is not tagged "stdout", one without text or whose text is no
    string, one whose text, trimmed, does not start with "data: ", and one
    whose line after that marker is not JSON. *)
Theorem onmessage_drops_unusable (rt : Runtime) (trim : string → string)
    (S data : string) (prev : list TaskEvent) :
  (∀ message, JSON_parse rt data = inr message →
     onmessage rt trim S data prev = prev)
  ∧ (∀ wrapper, JSON_parse rt data = inl wrapper → nullish wrapper →
       onmessage rt trim S data prev = prev)
  ∧ (∀ wrapper wtype, JSON_parse rt data = inl wrapper →
       member wrapper "type" = Some wtype → wtype ≠ JStr "stdout" →
       onmessage rt trim S data prev = prev)
  ∧ (∀ wrapper wdata, JSON_parse rt data = inl wrapper →
       member wrapper "data" = Some wdata → (∀ d, wdata ≠ JStr d) →
       onmessage rt trim S data prev = prev)
  ∧ (∀ wrapper d, JSON_parse rt data = inl wrapper →
       member wrapper "data" = Some (JStr d) →
       startsWith "data: " (trim d) = false →
       onmessage rt trim S data prev = prev)
  ∧ (∀ wrapper d line message, JSON_parse rt data = inl wrapper →
       member wrapper "data" = Some (JStr d) →
       trim d = "data: " +:+ line → JSON_parse rt line = inr message →
       onmessage rt trim S data prev = prev).
Proof.
  repeat split.
  - intros message Hp. unfold onmessage, onmessage_try. by rewrite Hp.
  - intros wrapper Hp [-> | ->]; unfold onmessage, onmessage_try; by rewrite Hp.
  - intros wrapper wtype Hp Ht Hne.
    destruct (member wrapper "data") as [wdata|] eqn:Hd.
    + rewrite (onmessage_wrapper rt trim S data prev wrapper wtype wdata) by done.
      apply strict_eq_str_false in Hne. by rewrite Hne.
    + unfold onmessage, onmessage_try. rewrite Hp, Ht.
      cbn [mbind option_bind]. by rewrite Hd.
  - intros wrapper wdata Hp Hd Hne.
    destruct (member wrapper "type") as [wtype|] eqn:Ht.
    + rewrite (onmessage_wrapper rt trim S data prev wrapper wtype wdata) by done.
      destruct (negb (strict_eq_str wtype "stdout") || negb (truthy wdata));
        [reflexivity |].
      destruct wdata; try reflexivity. by destruct (Hne s).
    + unfold onmessage, onmessage_try. by rewrite Hp, Ht.
  - intros wrapper d Hp Hd Hline.
    destruct (member wrapper "type") as [wtype|] eqn:Ht.
    + rewrite (onmessage_wrapper rt trim S data prev wrapper wtype (JStr d)) by done.
      destruct (negb (strict_eq_str wtype "stdout") || negb (truthy (JStr d)));
        [reflexivity |].
      by rewrite Hline.
    + unfold onmessage, onmessage_try. by rewrite Hp, Ht.
  - intros wrapper d line message Hp Hd Hline Hinner.
    destruct (member wrapper "type") as [wtype|] eqn:Ht.
    + rewrite (onmessage_wrapper rt trim S data prev wrapper wtype (JStr d)) by done.
      destruct (negb (strict_eq_str wtype "stdout") || negb (truthy (JStr d)));
        [reflexivity |].
      rewrite Hline.
      change (slice 6 ("data: " +:+ line)) with line.
      change (startsWith "data: " ("data: " +:+ line)) with (String.prefix "" line).
      destruct (String.prefix "" line); [| reflexivity].
      cbn [negb]. destruct (String.eqb line ""); [reflexivity |].
      by rewrite Hinner.
    + unfold onmessage, onmessage_try. by rewrite Hp, Ht.
Qed.

Lemma prefix_empty s : String.prefix "" s = true.
Proof. by destruct s. Qed.

(** X3: for every [trim], a chunk tagged "stdout" whose text is not empty
    and, trimmed, is "data: " followed by a non-empty line that parses to
    an event with properties, is normalized and handed to the session
    filter: it takes exactly that path to the subscriber. *)
Theorem onmessage_line (rt : Runtime) (trim : string → string)
    (S data d line : string) (wm : gmap string jsval) (ev : jsval) (e : TaskEvent)
    (prev : list TaskEvent) :
  JSON_parse rt data = inl (JObj wm) →
  wm !! "type" = Some (JStr "stdout") →
  wm !! "data" = Some (JStr d) →
  d ≠ "" →
  trim d = "data: " +:+ line →
  line ≠ "" →
  JSON_parse rt line = inl ev →
  normalize ev = Some e →
  onmessage rt trim S data prev = deliver S e prev.
Proof.
  intros Hp Ht Hd Hd' Hline Hne Hinner Hnorm.
  rewrite (onmessage_wrapper rt trim S data prev (JObj wm) (JStr "stdout") (JStr d));
    [| done | simpl; unfold prop; by rewrite Ht | simpl; unfold prop; by rewrite Hd].
  apply String.eqb_neq in Hd'.
  change (strict_eq_str (JStr "stdout") "stdout") with true.
  change (truthy (JStr d)) with (negb (String.eqb d "")).
  rewrite Hd'. cbn [negb orb]. cbv beta iota.
  rewrite Hline.
  change (slice 6 ("data: " +:+ line)) with line.
  change (startsWith "data: " ("data: " +:+ line)) with (String.prefix "" line).
  rewrite prefix_empty. cbn [negb].
  apply String.eqb_neq in Hne. rewrite Hne, Hinner.
  cbn [mbind option_bind]. by rewrite Hnorm.
Qed.

(** *** Normalization *)

Lemma member_not_nullish v k : ¬ nullish v → is_Some (member v k).
Proof.
  unfold nullish. destruct v; simpl; eauto; intros Hn; exfalso; apply Hn; auto.
Qed.

Lemma member_nullish v k : nullish v → member v k = None.
Proof. by intros [-> | ->]. Qed.

Lemma nullish_dec v : nullish v ∨ ¬ nullish v.
Proof.
  unfold nullish. destruct v; auto; right; intros [?|?]; discriminate.
Qed.

(** X4: an upstream event is lost in normalization (the property read
    throws, and the handler drops the line) exactly when it is [null] or
    when its [properties] is missing or [null]; every other event is
    normalized. *)
Theorem normalize_drops (ev : jsval) :
  normalize ev = None ↔
  nullish ev ∨ ∃ p, member ev "properties" = Some p ∧ nullish p.
Proof.
  unfold normalize. split.
  - destruct (nullish_dec ev) as [Hev | Hev]; [by left |].
    destruct (member_not_nullish ev "type" Hev) as [ty ->].
    destruct (member_not_nullish ev "properties" Hev) as [p Hp]. rewrite Hp.
    cbn [mbind option_bind].
    destruct (nullish_dec p) as [Hn | Hn]; [right; by exists p |].
    destruct (member_not_nullish p "sessionID" Hn) as [? ->].
    destruct (member_not_nullish p "messageID" Hn) as [? ->].
    destruct (member_not_nullish p "part" Hn) as [? ->].
    discriminate.
  - intros [Hev | (p & Hp & Hn)].
    + by rewrite (member_nullish ev "type" Hev).
    + rewrite Hp. destruct (member ev "type"); [| reflexivity].
      cbn [mbind option_bind]. by rewrite (member_nullish p "sessionID" Hn).
Qed.

(** X5: normalization keeps the type of the upstream event and every one of
    its native properties with its value, and adds nothing but the three
    properties [sessionId], [messageId] and [part]. *)
Theorem normalize_keeps_native (o m : gmap string jsval) (e : TaskEvent) :
  o !! "properties" = Some (JObj m) →
  normalize (JObj o) = Some e →
  type e = prop o "type"
  ∧ (∀ k v, m !! k = Some v → properties e !! k = Some v)
  ∧ dom (properties e) = dom m ∪ {[ "sessionId"; "messageId"; "part" ]}.
Proof.
  intros Hp Hn. rewrite (normalize_object o m Hp) in Hn.
  injection Hn as <-. simpl. split; [reflexivity |]. split.
  - intros k v Hk. by apply lookup_union_Some_l.
  - rewrite dom_union_L, !dom_insert_L, dom_singleton_L. set_solver.
Qed.

(** *** The text of the assistant *)

Lemma textParts_acc events parts :
  textParts events parts = parts ++ textParts events [].
Proof.
  revert parts. induction events as [|e events IH]; intros parts; simpl.
  - by rewrite app_nil_r.
  - rewrite (IH (parts ++ text_part e)), (IH (text_part e)).
    by rewrite app_assoc.
Qed.

Lemma textParts_app evs1 evs2 :
  textParts (evs1 ++ evs2) [] = textParts evs1 [] ++ textParts evs2 [].
Proof.
  induction evs1 as [|e evs1 IH]; [reflexivity |]. simpl.
  rewrite (textParts_acc (evs1 ++ evs2)), (textParts_acc evs1), IH.
  by rewrite app_assoc.
Qed.

Lemma string_app_empty_r (s : string) : s +:+ "" = s.
Proof.
  induction s as [|a s IH]; [reflexivity |].
  change (String a (s +:+ "") = String a s). by rewrite IH.
Qed.

Lemma string_app_assoc (s1 s2 s3 : string) :
  (s1 +:+ s2) +:+ s3 = s1 +:+ s2 +:+ s3.
Proof.
  induction s1 as [|a s1 IH]; [reflexivity |].
  change (String a ((s1 +:+ s2) +:+ s3) = String a (s1 +:+ s2 +:+ s3)).
  by rewrite IH.
Qed.

Lemma join_empty_cons num x l :
  join num "" (x :: l) =
    s ← match x with
        | JUndefined | JNull => Some ""
        | _ => ToString num x
        end;
    rest ← join num "" l;
    Some (s +:+ rest).
Proof.
  cbn [join].
  destruct (match x with JUndefined | JNull => Some "" | _ => ToString num x end)
    as [s|]; [| reflexivity].
  cbn [mbind option_bind]. destruct l as [|y l].
  - change (Some s = Some (s +:+ "")). by rewrite string_app_empty_r.
  - reflexivity.
Qed.

Lemma join_empty_app num l1 l2 :
  join num "" (l1 ++ l2) =
    s1 ← join num "" l1; s2 ← join num "" l2; Some (s1 +:+ s2).
Proof.
  induction l1 as [|x l1 IH].
  - simpl. by destruct (join num "" l2).
  - rewrite <- app_comm_cons, !join_empty_cons, IH.
    destruct (match x with JUndefined | JNull => Some "" | _ => ToString num x end)
      as [s|]; [| reflexivity].
    cbn [mbind option_bind].
    destruct (join num "" l1) as [s1|]; [| reflexivity].
    cbn [mbind option_bind].
    destruct (join num "" l2) as [s2|]; [| reflexivity].
    cbn [mbind option_bind]. by rewrite string_app_assoc.
Qed.

(** X6: the text of a list of events followed by another is the text of the
    first followed by the text of the second (and the call throws when one
    of the two does): text can be shown as the events come in. *)
Theorem getAssistantText_app (num : float → string) (evs1 evs2 : list TaskEvent) :
  getAssistantTextFromEvents num (evs1 ++ evs2) =
    s1 ← getAssistantTextFromEvents num evs1;
    s2 ← getAssistantTextFromEvents num evs2;
    Some (s1 +:+ s2).
Proof.
  unfold getAssistantTextFromEvents. by rewrite textParts_app, join_empty_app.
Qed.

(** X7: what one event adds to the text: a "message.part.updated" event
    adds its [delta] when that is a string, a "message.part.delta" event
    adds the text of its part when the part is of type "text" and the text
    is a string, and an event of any other type adds nothing. *)
Theorem getAssistantText_event (num : float → string) (e : TaskEvent) :
  (∀ s, type e = JStr "message.part.updated" →
     prop (properties e) "delta" = JStr s →
     getAssistantTextFromEvents num [e] = Some s)
  ∧ (∀ s, type e = JStr "message.part.delta" →
       opt_member (prop (properties e) "part") "type" = JStr "text" →
       opt_member (prop (properties e) "part") "text" = JStr s →
       getAssistantTextFromEvents num [e] = Some s)
  ∧ (type e ≠ JStr "message.part.updated" →
     type e ≠ JStr "message.part.delta" →
     getAssistantTextFromEvents num [e] = Some "").
Proof.
  unfold getAssistantTextFromEvents. simpl. unfold text_part. repeat split.
  - intros s Hty Hd. rewrite Hty, Hd. simpl.
    destruct (String.eqb s "") eqn:He; [| reflexivity].
    apply String.eqb_eq in He. by subst.
  - intros s Hty Hpt Htx. rewrite Hty, Hpt, Htx. simpl.
    destruct (String.eqb s "") eqn:He; [| reflexivity].
    apply String.eqb_eq in He. by subst.
  - intros H1 H2. apply strict_eq_str_false in H1, H2. by rewrite H1, H2.
Qed.

(** *** Tool usage *)

Lemma tool_loop_app evs1 evs2 st :
  tool_loop (evs1 ++ evs2) st = tool_loop evs2 (tool_loop evs1 st).
Proof.
  revert st. induction evs1 as [|e evs1 IH]; intros st; [reflexivity |].
  simpl. apply IH.
Qed.

Lemma tool_body_start e tools current :
  tool_start e →
  tool_body e (tools, current) =
    (tools,
     Some {| tool := opt_member (prop (properties e) "part") "tool";
             input := opt_member (prop (properties e) "part") "input";
             output := JUndefined |}).
Proof.
  intros [Hty Htool]. unfold tool_body. rewrite Hty, Htool. reflexivity.
Qed.

Lemma tool_body_end e tools current :
  type e = JStr "tool.end" →
  tool_body e (tools, current) =
    match current with
    | Some c =>
        (tools ++ [{| tool := tool c; input := input c;
                      output := opt_member (prop (properties e) "part") "output" |}],
         None)
    | None => (tools, None)
    end.
Proof.
  intros Hty. unfold tool_body. rewrite Hty. simpl. by destruct current.
Qed.

Lemma tool_body_other e st :
  type e ≠ JStr "tool.start" → type e ≠ JStr "tool.end" → tool_body e st = st.
Proof.
  intros H1 H2. destruct st as [tools current]. unfold tool_body.
  apply strict_eq_str_false in H1, H2. by rewrite H1, H2.
Qed.

(** X8: a [tool.start] event that names its tool, directly followed by a
    [tool.end] event, adds one entry to the tool usage, whatever came
    before: the tool and the input of the start, and the output of the
    end. *)
Theorem getToolUsage_pair (evs : list TaskEvent) (s e : TaskEvent) :
  tool_start s →
  type e = JStr "tool.end" →
  getToolUsageFromEvents (evs ++ [s; e]) =
    getToolUsageFromEvents evs
    ++ [{| tool := opt_member (prop (properties s) "part") "tool";
           input := opt_member (prop (properties s) "part") "input";
           output := opt_member (prop (properties e) "part") "output" |}].
Proof.
  intros Hs He. unfold getToolUsageFromEvents. rewrite tool_loop_app.
  destruct (tool_loop evs ([], None)) as [tools current]. cbn [tool_loop].
  by rewrite (tool_body_start s tools current Hs), (tool_body_end e _ _ He).
Qed.

(** X9: events that are neither [tool.start] nor [tool.end] do not disturb
    the pairing: mixed into the list at any place, they leave the tool
    usage as it is. *)
Theorem getToolUsage_other (evs1 evs2 : list TaskEvent) (e : TaskEvent) :
  type e ≠ JStr "tool.start" →
  type e ≠ JStr "tool.end" →
  getToolUsageFromEvents (evs1 ++ e :: evs2) = getToolUsageFromEvents (evs1 ++ evs2).
Proof.
  intros H1 H2. unfold getToolUsageFromEvents. rewrite !tool_loop_app. cbn [tool_loop].
  by rewrite tool_body_other.
Qed.

Lemma tool_body_start_tools e tools current :
  type e = JStr "tool.start" → (tool_body e (tools, current)).1 = tools.
Proof.
  intros Hty. unfold tool_body. rewrite Hty. simpl. by destruct (truthy _).
Qed.

Lemma tool_body_length e tools current :
  length (tool_body e (tools, current)).1
  ≤ length tools + (if strict_eq_str (type e) "tool.end" then 1 else 0).
Proof.
  destruct (strict_eq_str (type e) "tool.end") eqn:He.
  - apply strict_eq_str_true in He. rewrite (tool_body_end e tools current He).
    destruct current; simpl; rewrite ?length_app; simpl; lia.
  - apply strict_eq_str_false in He.
    destruct (strict_eq_str (type e) "tool.start") eqn:Hs.
    + apply strict_eq_str_true in Hs. rewrite tool_body_start_tools by done. lia.
    + apply strict_eq_str_false in Hs. rewrite tool_body_other by done. simpl. lia.
Qed.

Lemma tool_loop_bound evs tools current :
  length (tool_loop evs (tools, current)).1
  ≤ length tools
    + length (filter (λ e, strict_eq_str (type e) "tool.end" = true) evs).
Proof.
  revert tools current. induction evs as [|e evs IH]; intros tools current.
  - simpl. lia.
  - cbn [tool_loop]. rewrite filter_cons.
    pose proof (tool_body_length e tools current) as Hlen.
    destruct (tool_body e (tools, current)) as [tools' current'].
    specialize (IH tools' current'). simpl in Hlen.
    destruct (strict_eq_str (type e) "tool.end") eqn:He.
    + rewrite decide_True by done. simpl. lia.
    + rewrite decide_False by done. lia.
Qed.

(** X10: a tool is reported only when it has ended: there are at most as
    many entries as [tool.end] events, a [tool.start] at the end of the
    list is not reported, and a [tool.end] that follows no open
    [tool.start] (the list starts with it, or another [tool.end] comes
    right before it) adds nothing. *)
Theorem getToolUsage_needs_end (evs : list TaskEvent) :
  length (getToolUsageFromEvents evs)
    ≤ length (filter (λ e, strict_eq_str (type e) "tool.end" = true) evs)
  ∧ (∀ s, type s = JStr "tool.start" →
       getToolUsageFromEvents (evs ++ [s]) = getToolUsageFromEvents evs)
  ∧ (∀ e, type e = JStr "tool.end" → getToolUsageFromEvents (e :: evs)
       = getToolUsageFromEvents evs)
  ∧ (∀ e1 e2, type e1 = JStr "tool.end" → type e2 = JStr "tool.end" →
       getToolUsageFromEvents (evs ++ [e1; e2]) = getToolUsageFromEvents (evs ++ [e1])).
Proof.
  split; [| split; [| split]].
  - unfold getToolUsageFromEvents.
    pose proof (tool_loop_bound evs [] None) as H. simpl in H. exact H.
  - intros s Hs. unfold getToolUsageFromEvents. rewrite tool_loop_app.
    destruct (tool_loop evs ([], None)) as [tools current]. cbn [tool_loop].
    unfold tool_body. rewrite Hs. simpl.
    by destruct (truthy _).
  - intros e He. unfold getToolUsageFromEvents. cbn [tool_loop].
    by rewrite (tool_body_end e [] None He).
  - intros e1 e2 H1 H2. unfold getToolUsageFromEvents. rewrite !tool_loop_app.
    destruct (tool_loop evs ([], None)) as [tools current]. cbn [tool_loop].
    rewrite (tool_body_end e1 tools current H1).
    destruct current; by rewrite (tool_body_end e2 _ None H2).
Qed.

(** *** Completion *)

Lemma terminal_true e :
  strict_eq_str (type e) "session.idle" || strict_eq_str (type e) "error" = true
  ↔ terminal e.
Proof.
  unfold terminal. by rewrite orb_true_iff, !strict_eq_str_true.
Qed.

Lemma derive_body_complete e st c :
  (derive_body e st c).2 =
    c || (strict_eq_str (type e) "session.idle" || strict_eq_str (type e) "error").
Proof.
  unfold derive_body.
  destruct (strict_eq_str (type e) "session.status") eqn:Hs.
  - apply strict_eq_str_true in Hs. rewrite Hs. simpl. rewrite orb_false_r.
    by repeat match goal with |- context [if ?b then _ else _] => destruct b end.
  - destruct (strict_eq_str (type e) "session.idle");
      [simpl; by rewrite orb_true_r |].
    destruct (strict_eq_str (type e) "error");
      [simpl; by rewrite orb_true_r |].
    simpl. by rewrite orb_false_r.
Qed.

Lemma derive_loop_complete_iff evs st c :
  (derive_loop evs st c).2 = true ↔ c = true ∨ Exists terminal evs.
Proof.
  revert st c. induction evs as [|e evs IH]; intros st c; simpl.
  - rewrite Exists_nil. tauto.
  - pose proof (derive_body_complete e st c) as Hb.
    destruct (derive_body e st c) as [st' c']. simpl in Hb.
    rewrite IH, Exists_cons, Hb, orb_true_iff, terminal_true. tauto.
Qed.

Lemma isComplete_iff_terminal_aux (evs : list TaskEvent) :
  (deriveStatus evs).2 = true ↔ Exists terminal evs.
Proof.
  unfold deriveStatus. rewrite derive_loop_complete_iff.
  split; [intros [?|?]; [discriminate | done] | auto].
Qed.

(** X11: [isComplete] is true exactly when one of the events, at any place
    of the list, is a [session.idle] or an [error] event; so it is false
    for the empty list, and adding events never makes it false again. *)
Theorem isComplete_iff_terminal (evs : list TaskEvent) :
  ((deriveStatus evs).2 = true ↔ Exists terminal evs)
  ∧ (deriveStatus []).2 = false
  ∧ (∀ before after, (deriveStatus evs).2 = true →
       (deriveStatus (before ++ evs ++ after)).2 = true).
Proof.
  split; [apply isComplete_iff_terminal_aux |]. split; [reflexivity |].
  intros before after. rewrite !isComplete_iff_terminal_aux, !Exists_app. auto.
Qed.

End SubscriptionProperties.

(** ** Properties of the task page *)

Section PageProperties.
Import JS Hook Spec TaskPage.

(** X12: as long as no [session.idle] and no [error] event has come, the
    page shows "running" when the last status event says busy and the
    status of the task record otherwise (so "running" for a task that the
    worker has just created); from the first such event on, and whatever
    comes after it, it shows "error" or "completed", never "running". *)
Theorem displayStatus_terminal (serverStatus : string) (evs : list TaskEvent) :
  (¬ Exists terminal evs →
     displayStatus serverStatus evs =
       match (deriveStatus evs).1 with
       | Busy => "running"
       | _ => serverStatus
       end)
  ∧ (displayStatus "running" evs = "running" ↔ ¬ Exists terminal evs)
  ∧ (Exists terminal evs → ∀ ext,
       displayStatus serverStatus (evs ++ ext) = "error"
       ∨ displayStatus serverStatus (evs ++ ext) = "completed").
Proof.
  unfold displayStatus. split; [| split].
  - intros Hno. destruct (deriveStatus evs) as [st c] eqn:Hd. simpl.
    destruct c; [| reflexivity].
    exfalso. apply Hno. apply isComplete_iff_terminal_aux. by rewrite Hd.
  - rewrite <- isComplete_iff_terminal_aux.
    destruct (deriveStatus evs) as [st c]. simpl.
    destruct c, st; simpl; split; try done; intros H; by destruct H.
  - intros Hterm ext.
    assert (Hc : (deriveStatus (evs ++ ext)).2 = true).
    { apply isComplete_iff_terminal_aux. apply Exists_app. by left. }
    destruct (deriveStatus (evs ++ ext)) as [st c]. simpl in *. subst c.
    destruct st; auto.
Qed.

(** *** The event log *)

Lemma flat_app (l1 l2 : list string) : flat (l1 ++ l2) = flat l1 +:+ flat l2.
Proof.
  unfold flat. induction l1 as [|x l1 IH]; [reflexivity |].
  simpl. by rewrite IH, string_app_assoc.
Qed.

Lemma nonempty_false s : nonempty s = false ↔ s = "".
Proof. unfold nonempty. by rewrite negb_false_iff, String.eqb_eq. Qed.

Lemma nonempty_true s : nonempty s = true ↔ s ≠ "".
Proof. unfold nonempty. by rewrite negb_true_iff, String.eqb_neq. Qed.

(** What the loop keeps: the details shown so far, and the text that waits
    to be shown, are the details of the events read so far. *)
Lemma consolidate_body_details i f result acc start :
  let '(result', acc', _) := consolidate_body i f (result, acc, start) in
  flat (detail <$> result') +:+ acc' =
    (flat (detail <$> result) +:+ acc) +:+ Formatted.detail f.
Proof.
  unfold consolidate_body.
  destruct (String.eqb (Formatted.label f) "text" && nonempty (Formatted.detail f)).
  { by rewrite string_app_assoc. }
  destruct (nonempty acc) eqn:Hacc;
    destruct (nonempty (Formatted.label f) || nonempty (Formatted.detail f)) eqn:Hf.
  - rewrite !fmap_app, !flat_app. simpl. by rewrite !string_app_empty_r.
  - apply orb_false_iff in Hf as [_ Hd%nonempty_false]. rewrite Hd.
    rewrite !fmap_app, !flat_app. simpl. by rewrite !string_app_empty_r.
  - apply nonempty_false in Hacc as ->.
    rewrite !fmap_app, !flat_app. simpl. by rewrite !string_app_empty_r.
  - apply nonempty_false in Hacc as ->.
    apply orb_false_iff in Hf as [_ Hd%nonempty_false]. rewrite Hd.
    by rewrite !string_app_empty_r.
Qed.

Lemma consolidate_loop_details f evs i result acc start :
  let '(result', acc', _) := consolidate_loop f evs i (result, acc, start) in
  flat (detail <$> result') +:+ acc' =
    (flat (detail <$> result) +:+ acc)
    +:+ flat ((λ e, Formatted.detail (f e)) <$> evs).
Proof.
  revert i result acc start.
  induction evs as [|e evs IH]; intros i result acc start.
  - simpl. by rewrite string_app_empty_r.
  - cbn [consolidate_loop].
    pose proof (consolidate_body_details i (f e) result acc start) as Hb.
    destruct (consolidate_body i (f e) (result, acc, start))
      as [[result1 acc1] start1].
    specialize (IH (i + 1)%Z result1 acc1 start1).
    destruct (consolidate_loop f evs (i + 1) (result1, acc1, start1))
      as [[result2 acc2] start2].
    rewrite IH, Hb. simpl. by rewrite !string_app_assoc.
Qed.

(** X13: consolidation loses no text and does not reorder it: the details
    of the entries of the log, read one after the other, are the details of
    the formatted events, read one after the other. *)
Theorem consolidateEvents_details (evs : list TaskEvent)
    (formatEvent : TaskEvent → Formatted.t) :
  flat (detail <$> consolidateEvents evs formatEvent) =
    flat ((λ e, Formatted.detail (formatEvent e)) <$> evs).
Proof.
  unfold consolidateEvents.
  pose proof (consolidate_loop_details formatEvent evs 0 [] "" (-1)) as H.
  destruct (consolidate_loop formatEvent evs 0 ([], "", (-1)%Z))
    as [[result acc] start].
  change (flat (detail <$> result) +:+ acc =
            flat ((λ e, Formatted.detail (formatEvent e)) <$> evs)) in H.
  rewrite <- H.
  destruct (nonempty acc) eqn:Hacc.
  - rewrite fmap_app, flat_app. simpl. by rewrite string_app_empty_r.
  - apply nonempty_false in Hacc as ->. by rewrite string_app_empty_r.
Qed.

Lemma sorted_snoc (l : list Z) (x : Z) :
  StronglySorted Z.lt l → Forall (λ k, 0 ≤ k < x)%Z l →
  StronglySorted Z.lt (l ++ [x]).
Proof.
  intros Hs Hall. apply StronglySorted_app_2; [| done | repeat constructor].
  intros x1 x2 H1 ->%list_elem_of_singleton.
  rewrite Forall_forall in Hall. apply Hall in H1. lia.
Qed.

Lemma Forall_below (l : list Z) (a b : Z) :
  (a ≤ b)%Z → Forall (λ k, 0 ≤ k < a)%Z l → Forall (λ k, 0 ≤ k < b)%Z l.
Proof.
  intros Hab Hall. eapply Forall_impl; [exact Hall |]. intros k. simpl. lia.
Qed.

Lemma nonempty_app_r s d : nonempty d = true → nonempty (s +:+ d) = true.
Proof.
  rewrite !nonempty_true. intros Hd Happ. apply Hd.
  destruct s; [exact Happ | discriminate Happ].
Qed.

Lemma consolidate_body_consolidated i f st :
  (0 ≤ i)%Z → consolidated i st → consolidated (i + 1) (consolidate_body i f st).
Proof.
  intros Hi. destruct st as [[result acc] start].
  unfold consolidated, consolidate_body. intros (Hsorted & Hlen & Hstart).
  destruct (String.eqb (Formatted.label f) "text" && nonempty (Formatted.detail f))
    eqn:Htext.
  - apply andb_true_iff in Htext as [_ Hd].
    rewrite (nonempty_app_r acc _ Hd).
    split; [done |]. destruct (nonempty acc).
    + destruct Hstart as [Hrange Hall].
      assert (Z.eqb start (-1) = false) as -> by (apply Z.eqb_neq; lia).
      repeat split; try done; lia.
    + destruct Hstart as [-> Hall]. simpl. repeat split; try done; lia.
  - destruct (nonempty acc) eqn:Hacc.
    + destruct Hstart as [Hrange Hall].
      assert (Hsorted1 : StronglySorted Z.lt
                (index <$> result ++ [text_entry acc start])).
      { rewrite fmap_app. by apply sorted_snoc. }
      assert (Hall1 : Forall (λ k, 0 ≤ k < i)%Z
                (index <$> result ++ [text_entry acc start])).
      { rewrite fmap_app. apply Forall_app. split.
        - apply (Forall_below _ start); [lia | done].
        - repeat constructor; simpl; lia. }
      destruct (nonempty (Formatted.label f) || nonempty (Formatted.detail f)).
      * simpl. rewrite fmap_app. split; [by apply sorted_snoc |].
        split; [rewrite !length_app; simpl; lia |]. split; [done |].
        rewrite <- fmap_app. rewrite fmap_app. apply Forall_app. split.
        -- apply (Forall_below _ i); [lia | done].
        -- repeat constructor; simpl; lia.
      * simpl. split; [done |].
        split; [rewrite length_app; simpl; lia |]. split; [done |].
        apply (Forall_below _ i); [lia | done].
    + destruct Hstart as [-> Hall].
      destruct (nonempty (Formatted.label f) || nonempty (Formatted.detail f)).
      * rewrite Hacc. rewrite fmap_app. split; [by apply sorted_snoc |].
        split; [rewrite length_app; simpl; lia |]. split; [done |].
        apply Forall_app. split.
        -- apply (Forall_below _ i); [lia | done].
        -- repeat constructor; simpl; lia.
      * rewrite Hacc. split; [done |]. split; [lia |]. split; [done |].
        apply (Forall_below _ i); [lia | done].
Qed.

Lemma consolidate_loop_consolidated f evs i st :
  (0 ≤ i)%Z → consolidated i st →
  consolidated (i + Z.of_nat (length evs)) (consolidate_loop f evs i st).
Proof.
  revert i st. induction evs as [|e evs IH]; intros i st Hi Hinv.
  - simpl. by rewrite Z.add_0_r.
  - cbn [consolidate_loop length].
    replace (i + Z.of_nat (S (length evs)))%Z
      with ((i + 1) + Z.of_nat (length evs))%Z by lia.
    apply IH; [lia |]. by apply consolidate_body_consolidated.
Qed.

(** X14: the entries of the log are in the order of the events: their
    indices grow strictly, each is the index of an event of the list, and
    there are no more entries than events. *)
Theorem consolidateEvents_indices (evs : list TaskEvent)
    (formatEvent : TaskEvent → Formatted.t) :
  StronglySorted Z.lt (index <$> consolidateEvents evs formatEvent)
  ∧ Forall (λ d, 0 ≤ index d < Z.of_nat (length evs))%Z
      (consolidateEvents evs formatEvent)
  ∧ length (consolidateEvents evs formatEvent) ≤ length evs.
Proof.
  unfold consolidateEvents.
  assert (Hinit : consolidated 0 ([], "", (-1)%Z)).
  { unfold consolidated. simpl. repeat split; try constructor; lia. }
  pose proof (consolidate_loop_consolidated formatEvent evs 0 _ (Z.le_refl 0) Hinit)
    as Hinv.
  destruct (consolidate_loop formatEvent evs 0 ([], "", (-1)%Z))
    as [[result acc] start].
  unfold consolidated in Hinv. destruct Hinv as (Hsorted & Hlen & Hstart).
  rewrite Z.add_0_l in *.
  destruct (nonempty acc).
  - destruct Hstart as [Hrange Hall]. split; [| split].
    + rewrite fmap_app. by apply sorted_snoc.
    + apply Forall_app. split.
      * apply Forall_fmap in Hall. eapply Forall_impl; [exact Hall |].
        intros d. simpl. lia.
      * repeat constructor; simpl; lia.
    + rewrite length_app. simpl. lia.
  - destruct Hstart as [_ Hall]. split; [done |]. split.
    + apply Forall_fmap in Hall. eapply Forall_impl; [exact Hall |].
      intros d. simpl. lia.
    + lia.
Qed.

Lemma consolidate_loop_text f evs i result acc start :
  (0 ≤ i)%Z →
  Forall (λ e, Formatted.label (f e) = "text" ∧ Formatted.detail (f e) ≠ "") evs →
  consolidate_loop f evs i (result, acc, start) =
    (result,
     acc +:+ flat ((λ e, Formatted.detail (f e)) <$> evs),
     match evs with
     | [] => start
     | _ :: _ => if Z.eqb start (-1) then i else start
     end).
Proof.
  revert i acc start. induction evs as [|e evs IH]; intros i acc start Hi Hall.
  - simpl. by rewrite string_app_empty_r.
  - apply Forall_cons in Hall as [[Hl Hd] Hall].
    cbn [consolidate_loop]. unfold consolidate_body.
    apply nonempty_true in Hd. rewrite Hl, Hd. simpl andb. cbv iota.
    rewrite (IH (i + 1)%Z _ _ ltac:(lia) Hall). simpl. rewrite string_app_assoc. f_equal.
    destruct evs; [reflexivity |].
    destruct (Z.eqb start (-1)) eqn:Hs; [| by rewrite Hs].
    assert (Z.eqb i (-1) = false) as -> by (apply Z.eqb_neq; lia).
    reflexivity.
Qed.

(** X15: a list of events that are all text (the label "text" and a
    non-empty detail) is shown as one entry: the label "text", the details
    one after the other, and the index of the first event; an empty list
    is shown as no entry. *)
Theorem consolidateEvents_text (e : TaskEvent) (evs : list TaskEvent)
    (formatEvent : TaskEvent → Formatted.t) :
  Forall (λ e, Formatted.label (formatEvent e) = "text"
               ∧ Formatted.detail (formatEvent e) ≠ "") (e :: evs) →
  consolidateEvents [] formatEvent = []
  ∧ consolidateEvents (e :: evs) formatEvent =
      [{| label := "text";
          detail := flat ((λ e, Formatted.detail (formatEvent e)) <$> e :: evs);
          color := "text-foreground";
          index := 0 |}].
Proof.
  intros Hall. split; [reflexivity |].
  unfold consolidateEvents. rewrite (consolidate_loop_text _ _ _ _ _ _ (Z.le_refl 0) Hall).
  apply Forall_cons in Hall as [[_ Hd] _].
  assert (Hne : nonempty
            ("" +:+ flat ((λ e, Formatted.detail (formatEvent e)) <$> e :: evs))
          = true).
  { apply nonempty_true. simpl. intros Happ. apply Hd.
    destruct (Formatted.detail (formatEvent e)); [done | discriminate Happ]. }
  rewrite Hne. reflexivity.
Qed.

End PageProperties.

(** ** Further properties of the worker *)

Section BootstrapProperties.
Import JS TasksApp Spec.
Context (rt : Runtime) (w : World).

(** *** curlJson *)

(** The command line of [curlJson] with a body. *)
Lemma curl_command_body method url body :
  truthy body = true →
  curl_command rt method url body =
    "curl -s -X " +:+ method +:+ " -H 'Content-Type: application/json' -d '"
    +:+ (escape_quotes (JSON_stringify rt body) +:+ "'") +:+ " '" +:+ url +:+ "'".
Proof. intros Hb. unfold curl_command. rewrite Hb. reflexivity. Qed.

Lemma sh_word_escape (s rest : string) :
  sh_word true (escape_quotes s +:+ rest) = String.append s <$> sh_word true rest.
Proof.
  induction s as [|a s IH].
  - simpl. change ("" +:+ rest) with rest. by destruct (sh_word true rest).
  - cbn [escape_quotes]. destruct (Ascii.eqb a "'") eqn:Ha.
    + apply Ascii.eqb_eq in Ha as ->.
      change (("'\''" +:+ escape_quotes s) +:+ rest)
        with ("'\''" +:+ (escape_quotes s +:+ rest)).
      change (sh_word true ("'\''" +:+ (escape_quotes s +:+ rest)))
        with (String "'"%char <$> sh_word true (escape_quotes s +:+ rest)).
      rewrite IH. by destruct (sh_word true rest).
    + change ((String a "" +:+ escape_quotes s) +:+ rest)
        with (String a (escape_quotes s +:+ rest)).
      cbn [sh_word]. rewrite Ha, IH. by destruct (sh_word true rest).
Qed.

(** X18: the quoting of the request body is safe: for every string, the
    shell reads the single-quoted, escaped text as one word that is the
    string itself; single quotes in a prompt cannot end the argument. *)
Theorem escape_quotes_shell (s : string) :
  sh_word false ("'" +:+ escape_quotes s +:+ "'") = Some s.
Proof.
  change (sh_word false ("'" +:+ escape_quotes s +:+ "'"))
    with (sh_word true (escape_quotes s +:+ "'")).
  rewrite sh_word_escape. simpl. by rewrite string_app_empty_r.
Qed.

(** *** Task creation, step by step *)

(** Every run of [createTask], as a decision tree over the answers of the
    world. *)
Lemma createTask_run (req : CreateTaskRequest) (h : list Call) :
  createTask rt w req h =
    let taskId := taskId_at w h in
    let h1 := (h ++ [GetSandbox taskId]) ++ [Exec taskId (clone_command req) None] in
    if success (exec_result w h1) then
      match waitForOpenCode w taskId 30 1000 (h1 ++ [start_agent taskId]) with
      | (inl true, h3) =>
          let h4 := h3 ++ [create_session rt taskId req] in
          if success (exec_result w h4) then
            match JSON_parse rt (stdout (exec_result w h4)) with
            | inl d => session_outcome rt w req h d h4
            | inr message =>
                (inl (failure ("Failed to create session: "
                               +:+ ("Failed to parse JSON: " +:+ message))), h4)
            end
          else
            (inl (failure ("Failed to create session: "
                           +:+ ("curl failed: " +:+ stderr (exec_result w h4)))), h4)
      | (inl false, h3) =>
          (inl (failure "OpenCode server failed to start within timeout"), h3)
      | (inr message, h3) => (inl (failure message), h3)
      end
    else
      (inl (failure ("Failed to clone repository: " +:+ stderr (exec_result w h1))),
       h1).
Proof.
  unfold createTask, try_catch, createTask_try, curlJson, session_outcome,
    failure, start_agent, create_session.
  unfold bind, ret, throw, now_ms, random36, now_iso, getSandbox, exec,
    startProcess.
  cbv beta iota zeta. fold (taskId_at w h).
  destruct (success (exec_result w _)); cbv beta iota zeta delta [negb];
    [| reflexivity].
  destruct (waitForOpenCode w _ 30 1000 _) as [[[|] | message] h3];
    cbv beta iota zeta delta [negb]; [| reflexivity | reflexivity].
  destruct (success (exec_result w _)); cbv beta iota zeta delta [negb];
    [| reflexivity].
  destruct (JSON_parse rt _) as [d | message]; cbv beta iota zeta delta [data error];
    [| reflexivity].
  destruct (OpenCodeSessionResponseSchema d) as [sid|]; [reflexivity |].
  destruct (OpenCodeErrorResponseSchema d) as [[e msg]|]; [| reflexivity].
  by destruct (truthy (or_else e msg)).
Qed.


(** X20: when the agent does not come up (the clone succeeded, and 30
    probes fail), [createTask] answers 500 with "OpenCode server failed to
    start within timeout" after 30 probes and 30 sleeps of one second; the
    agent process was started, no session is created and no prompt is
    sent. *)
Theorem createTask_timeout (req : CreateTaskRequest) (h : list Call) :
  let taskId := taskId_at w h in
  let h2 :=
    h ++ [GetSandbox taskId; Exec taskId (clone_command req) None;
          start_agent taskId] in
  success (exec_result w
             (h ++ [GetSandbox taskId; Exec taskId (clone_command req) None]))
    = true →
  (∀ k, k < 30 →
     probe_ok (exec_result w (probe_history h2 taskId 1000 k)) = false) →
  createTask rt w req h =
    (inl (Json (obj [("error",
                      JStr "OpenCode server failed to start within timeout")])
            500),
     h2 ++ attempts taskId 1000 30)
  ∧ probe_calls (attempts taskId 1000 30) = 30.
Proof.
  intros taskId h2 Hclone Hfail. subst h2.
  split; [| apply probe_calls_attempts].
  rewrite createTask_run. cbv zeta. fold taskId.
  replace ((h ++ [GetSandbox taskId]) ++ [Exec taskId (clone_command req) None])
    with (h ++ [GetSandbox taskId; Exec taskId (clone_command req) None])
    by (by rewrite <- app_assoc).
  rewrite Hclone.
  replace ((h ++ [GetSandbox taskId; Exec taskId (clone_command req) None])
           ++ [start_agent taskId])
    with (h ++ [GetSandbox taskId; Exec taskId (clone_command req) None;
                start_agent taskId])
    by (by rewrite <- app_assoc).
  by rewrite (waitForOpenCode_exhausted w taskId 1000 30 _ Hfail).
Qed.

(** X21: when the agent is ready but the session call fails, [createTask]
    answers 500 and sends no prompt (the session call is its last call):
    with "Failed to create session: curl failed: " and the error output
    when curl fails, and with "Failed to create session: Failed to parse
    JSON: " and the message of the parser when its output is not JSON. *)
Theorem createTask_session_call_fails (req : CreateTaskRequest)
    (h h3 : list Call) :
  let taskId := taskId_at w h in
  let h2 :=
    h ++ [GetSandbox taskId; Exec taskId (clone_command req) None;
          start_agent taskId] in
  let h4 := h3 ++ [create_session rt taskId req] in
  success (exec_result w
             (h ++ [GetSandbox taskId; Exec taskId (clone_command req) None]))
    = true →
  waitForOpenCode w taskId 30 1000 h2 = (inl true, h3) →
  (success (exec_result w h4) = false →
     createTask rt w req h =
       (inl (Json (obj [("error",
                         JStr ("Failed to create session: curl failed: "
                               +:+ stderr (exec_result w h4)))])
               500),
        h4))
  ∧ (∀ message, success (exec_result w h4) = true →
       JSON_parse rt (stdout (exec_result w h4)) = inr message →
       createTask rt w req h =
         (inl (Json (obj [("error",
                           JStr ("Failed to create session: Failed to parse JSON: "
                                 +:+ message))])
                 500),
          h4)).
Proof.
  intros taskId h2 h4 Hclone Hready. subst h2 h4.
  assert (Hrun : createTask rt w req h =
    let h4 := h3 ++ [create_session rt taskId req] in
    if success (exec_result w h4) then
      match JSON_parse rt (stdout (exec_result w h4)) with
      | inl d => session_outcome rt w req h d h4
      | inr message =>
          (inl (failure ("Failed to create session: "
                         +:+ ("Failed to parse JSON: " +:+ message))), h4)
      end
    else
      (inl (failure ("Failed to create session: "
                     +:+ ("curl failed: " +:+ stderr (exec_result w h4)))), h4)).
  { rewrite createTask_run. cbv zeta. fold taskId.
    replace ((h ++ [GetSandbox taskId]) ++ [Exec taskId (clone_command req) None])
      with (h ++ [GetSandbox taskId; Exec taskId (clone_command req) None])
      by (by rewrite <- app_assoc).
    rewrite Hclone.
    replace ((h ++ [GetSandbox taskId; Exec taskId (clone_command req) None])
             ++ [start_agent taskId])
      with (h ++ [GetSandbox taskId; Exec taskId (clone_command req) None;
                  start_agent taskId])
      by (by rewrite <- app_assoc).
    by rewrite Hready. }
  rewrite Hrun. cbv zeta. split.
  - intros ->. reflexivity.
  - intros message -> ->. reflexivity.
Qed.

End BootstrapProperties.

(** ** The page and the worker together *)

Section EndToEnd.
Import JS TasksApp Spec.
Context (rt : Runtime) (w : World).
Context (encodeURIComponent : string → string)
  (fetch : Client.Request → option Client.Response).



End EndToEnd.

(** ** The further properties on sample inputs *)

Section MoreSamples.
Import JS Hook TasksApp Spec.

Let tid : string := "task-1735689600000-82mvyr".

(** A chunk of the error output, and a chunk with a broken line. *)
Lemma onmessage_drops_unusable_witness :
  onmessage Sample.runtime Sample.trim_ascii "ses_1" "no json" [Sample.idle_event]
    = [Sample.idle_event]
  ∧ onmessage Sample.runtime Sample.trim_ascii "ses_1" Sample.stderr_chunk [] = []
  ∧ onmessage Sample.runtime Sample.trim_ascii "ses_1" Sample.broken_chunk [] = [].
Proof.
  split; [| split].
  - destruct (onmessage_drops_unusable Sample.runtime Sample.trim_ascii "ses_1"
                "no json" [Sample.idle_event]) as (Hjson & _).
    exact (Hjson "Unexpected token" eq_refl).
  - destruct (onmessage_drops_unusable Sample.runtime Sample.trim_ascii "ses_1"
                Sample.stderr_chunk []) as (_ & _ & Htype & _).
    refine (Htype _ (JStr "stderr") eq_refl eq_refl _). discriminate.
  - destruct (onmessage_drops_unusable Sample.runtime Sample.trim_ascii "ses_1"
                Sample.broken_chunk []) as (_ & _ & _ & _ & _ & Hline).
    exact (Hline _ "data: {" "{" "Unexpected token" eq_refl eq_refl eq_refl eq_refl).
Defined.

(** The chunk that carries the [session.idle] event of session "ses_1". *)
Lemma onmessage_line_witness :
  ∃ e, normalize Sample.idle_native = Some e
    ∧ onmessage Sample.runtime Sample.trim_ascii "ses_1" Sample.stdout_chunk []
      = deliver "ses_1" e [].
Proof.
  eexists. split; [reflexivity |].
  refine (onmessage_line Sample.runtime Sample.trim_ascii "ses_1" Sample.stdout_chunk
            ("data: " +:+ Sample.idle_text +:+ Sample.newline) Sample.idle_text
            _ Sample.idle_native _ [] eq_refl eq_refl eq_refl _ eq_refl _
            eq_refl eq_refl); discriminate.
Defined.

(** The event with both spellings keeps its four native properties. *)
Lemma normalize_keeps_native_witness :
  ∃ e, normalize (JObj Sample.both_spellings_event) = Some e
    ∧ type e = JStr "message.updated"
    ∧ properties e !! "sessionID" = Some (JStr "ses_A")
    ∧ dom (properties e)
      = dom Sample.both_spellings_properties ∪ {[ "sessionId"; "messageId"; "part" ]}.
Proof.
  eexists. split; [reflexivity |].
  destruct (normalize_keeps_native Sample.both_spellings_event
              Sample.both_spellings_properties _ eq_refl eq_refl)
    as (Hty & Hkeep & Hdom).
  split; [exact Hty |]. split; [exact (Hkeep "sessionID" _ eq_refl) | exact Hdom].
Defined.

(** A delta, and an event without text. *)
Lemma getAssistantText_event_witness :
  getAssistantTextFromEvents (λ _, "0") [Sample.delta_event] = Some "done"
  ∧ getAssistantTextFromEvents (λ _, "0") [Sample.idle_event] = Some "".
Proof.
  split.
  - destruct (getAssistantText_event (λ _, "0") Sample.delta_event) as (Hdelta & _).
    exact (Hdelta "done" eq_refl eq_refl).
  - destruct (getAssistantText_event (λ _, "0") Sample.idle_event)
      as (_ & _ & Hother).
    apply Hother; discriminate.
Defined.

(** A tool that starts and ends, after an end that closes nothing. *)
Lemma getToolUsage_pair_witness :
  getToolUsageFromEvents [Sample.end_event; Sample.start_event; Sample.end_event] =
    [{| tool := JStr "write"; input := obj [("path", JStr "README.md")];
        output := JStr "ok" |}].
Proof.
  exact (getToolUsage_pair [Sample.end_event] Sample.start_event Sample.end_event
           (conj eq_refl eq_refl) eq_refl).
Defined.

(** A text delta between the start and the end of a tool. *)
Lemma getToolUsage_other_witness :
  getToolUsageFromEvents [Sample.start_event; Sample.delta_event; Sample.end_event] =
    getToolUsageFromEvents [Sample.start_event; Sample.end_event].
Proof.
  refine (getToolUsage_other [Sample.start_event] [Sample.end_event]
            Sample.delta_event _ _); discriminate.
Defined.

(** A tool that has not ended, and two ends in a row. *)
Lemma getToolUsage_needs_end_witness :
  getToolUsageFromEvents ([Sample.start_event; Sample.end_event] ++ [Sample.start_event])
    = getToolUsageFromEvents [Sample.start_event; Sample.end_event]
  ∧ getToolUsageFromEvents
      ([Sample.start_event] ++ [Sample.end_event; Sample.end_event])
    = getToolUsageFromEvents ([Sample.start_event] ++ [Sample.end_event]).
Proof.
  split.
  - destruct (getToolUsage_needs_end [Sample.start_event; Sample.end_event])
      as (_ & Hstart & _).
    exact (Hstart Sample.start_event eq_refl).
  - destruct (getToolUsage_needs_end [Sample.start_event]) as (_ & _ & _ & Hends).
    exact (Hends Sample.end_event Sample.end_event eq_refl eq_refl).
Defined.

(** Busy, then an error, then busy again: complete, and shown as such. *)
Lemma isComplete_iff_terminal_witness :
  (deriveStatus [Sample.busy_event; Sample.error_event]).2 = true
  ∧ (deriveStatus ([Sample.busy_event]
                   ++ [Sample.busy_event; Sample.error_event]
                   ++ [Sample.busy_event])).2 = true.
Proof.
  destruct (isComplete_iff_terminal [Sample.busy_event; Sample.error_event])
    as (Hiff & _ & Hmono).
  assert (Hc : (deriveStatus [Sample.busy_event; Sample.error_event]).2 = true).
  { apply Hiff. apply Exists_cons_tl, Exists_cons_hd. right. reflexivity. }
  split; [exact Hc | exact (Hmono [Sample.busy_event] [Sample.busy_event] Hc)].
Defined.

Lemma displayStatus_terminal_witness :
  displayStatus "running" [Sample.delta_event] = "running"
  ∧ (displayStatus "running" ([Sample.busy_event; Sample.idle_event]
                              ++ [Sample.busy_event]) = "error"
     ∨ displayStatus "running" ([Sample.busy_event; Sample.idle_event]
                                ++ [Sample.busy_event]) = "completed").
Proof.
  split.
  - destruct (displayStatus_terminal "running" [Sample.delta_event]) as (Hno & _).
    apply Hno. intros Hex. apply Exists_cons in Hex as [[H|H] | Hex];
      [discriminate H | discriminate H | by apply Exists_nil in Hex].
  - destruct (displayStatus_terminal "running" [Sample.busy_event; Sample.idle_event])
      as (_ & _ & Hterm).
    apply Hterm. apply Exists_cons_tl, Exists_cons_hd. left. reflexivity.
Defined.

(** Two deltas in a row are one entry of the log. *)
Lemma consolidateEvents_text_witness :
  TaskPage.consolidateEvents [Sample.delta_event; Sample.delta_event]
    Sample.delta_format =
    [{| TaskPage.label := "text"; TaskPage.detail := "donedone";
        TaskPage.color := "text-foreground"; TaskPage.index := 0 |}].
Proof.
  refine (proj2 (consolidateEvents_text Sample.delta_event [Sample.delta_event]
                   Sample.delta_format _)).
  repeat constructor; discriminate.
Defined.

(** The agent never comes up. *)
Lemma createTask_timeout_witness :
  response_of (createTask Sample.runtime Sample.never_ready Sample.request [])
    = Some (failure "OpenCode server failed to start within timeout")
  ∧ length (createTask Sample.runtime Sample.never_ready Sample.request []).2 = 63.
Proof.
  destruct (createTask_timeout Sample.runtime Sample.never_ready Sample.request []
              eq_refl (λ k _, eq_refl)) as [Hrun _].
  rewrite Hrun. split; reflexivity.
Defined.

(** The session call fails, and the session call prints no JSON. *)
Lemma createTask_session_call_fails_witness :
  response_of (createTask Sample.runtime Sample.post_fails Sample.request [])
    = Some (failure "Failed to create session: curl failed: curl: (7) Failed to connect")
  ∧ response_of (createTask Sample.runtime (Sample.prints "<html>") Sample.request [])
    = Some (failure
              "Failed to create session: Failed to parse JSON: Unexpected token").
Proof.
  split.
  - destruct (createTask_session_call_fails Sample.runtime Sample.post_fails
                Sample.request []
                [GetSandbox tid; Exec tid (clone_command Sample.request) None;
                 start_agent tid; Exec tid probe_command None]
                eq_refl eq_refl) as [Hcurl _].
    rewrite (Hcurl eq_refl). reflexivity.
  - destruct (createTask_session_call_fails Sample.runtime (Sample.prints "<html>")
                Sample.request []
                [GetSandbox tid; Exec tid (clone_command Sample.request) None;
                 start_agent tid; Exec tid probe_command None]
                eq_refl eq_refl) as [_ Hparse].
    rewrite (Hparse "Unexpected token" eq_refl eq_refl). reflexivity.
Defined.


End MoreSamples.

(** ** The worker, when [exec] can reject *)

Section RejectingProperties.
Import JS TasksApp Spec.
Context (rt : Runtime) (o : Rejecting.Outside).

Let w : World := Rejecting.answers o.

Lemma getDiff_outcome (taskId : string) (h : list Call) :
  Rejecting.getDiff o taskId h =
    let h1 :=
      h ++ [GetSandbox taskId; Exec taskId "git diff HEAD" (Some "/workspace/repo")] in
    match Rejecting.exec_rejects o h1 with
    | Some message => (inr message, h1)
    | None =>
        (inl (Json
                (obj [("data",
                       obj [("diff", JStr (stdout (exec_result w h1)));
                            ("taskId", JStr taskId)])])
                200),
         h1)
    end.
Proof.
  cbv zeta. rewrite history_two.
  unfold Rejecting.getDiff, bind, getSandbox, Rejecting.exec, ret. cbv zeta.
  destruct (Rejecting.exec_rejects o _); [reflexivity |].
  by rewrite or_else_string.
Qed.

(** C7, amended: for every task identifier, the diff handler asks for the
    sandbox and runs [git diff HEAD] in the repository. When that call
    resolves, whether the command succeeded or not, it answers 200 with the
    standard output as the diff, and so with the empty string when there is
    no output (no changes, or nothing to run the diff on). When the call
    rejects, the handler has no error path of its own: the exception leaves
    it, and no response is made by it. *)
Theorem diff_when_exec_resolves (taskId : string) (h : list Call) :
  let h1 :=
    h ++ [GetSandbox taskId; Exec taskId "git diff HEAD" (Some "/workspace/repo")] in
  (Rejecting.exec_rejects o h1 = None →
     Rejecting.getDiff o taskId h =
       (inl (Json
               (obj [("data",
                      obj [("diff", JStr (stdout (exec_result w h1)));
                           ("taskId", JStr taskId)])])
               200),
        h1)
     ∧ (stdout (exec_result w h1) = "" →
        Rejecting.getDiff o taskId h =
          (inl (Json (obj [("data", obj [("diff", JStr ""); ("taskId", JStr taskId)])])
                  200),
           h1)))
  ∧ (∀ message, Rejecting.exec_rejects o h1 = Some message →
       Rejecting.getDiff o taskId h = (inr message, h1)
       ∧ response_of (Rejecting.getDiff o taskId h) = None).
Proof.
  intros h1. rewrite getDiff_outcome. cbv zeta. fold h1. split.
  - intros ->. split; [reflexivity |]. by intros ->.
  - intros message ->. split; reflexivity.
Qed.

(** *** The readiness poller *)

Lemma rejecting_wait_step sandbox n ms h :
  Rejecting.waitForOpenCode o sandbox (S n) ms h =
    let h1 := h ++ [Exec sandbox probe_command None] in
    match Rejecting.exec_rejects o h1 with
    | Some message => (inr message, h1)
    | None =>
        if probe_ok (exec_result w h1) then (inl true, h1)
        else Rejecting.waitForOpenCode o sandbox n ms (h1 ++ [SetTimeout ms])
    end.
Proof.
  simpl. unfold bind, Rejecting.exec, sleep, ret. cbv zeta.
  destruct (Rejecting.exec_rejects o _); [reflexivity |].
  by destruct (probe_ok _).
Qed.

Lemma rejecting_wait_outcome (sandbox : string) (maxAttempts : nat)
    (intervalMs : Z) (h : list Call) :
  ∃ k,
    (∀ j, j < k → probe_fails o (probe_history h sandbox intervalMs j))
    ∧ ((k < maxAttempts
        ∧ Rejecting.exec_rejects o (probe_history h sandbox intervalMs k) = None
        ∧ probe_ok (exec_result w (probe_history h sandbox intervalMs k)) = true
        ∧ Rejecting.waitForOpenCode o sandbox maxAttempts intervalMs h =
            (inl true, probe_history h sandbox intervalMs k))
       ∨ (k < maxAttempts
          ∧ ∃ message,
              Rejecting.exec_rejects o (probe_history h sandbox intervalMs k)
                = Some message
              ∧ Rejecting.waitForOpenCode o sandbox maxAttempts intervalMs h =
                  (inr message, probe_history h sandbox intervalMs k))
       ∨ (k = maxAttempts
          ∧ Rejecting.waitForOpenCode o sandbox maxAttempts intervalMs h =
              (inl false, h ++ attempts sandbox intervalMs maxAttempts))).
Proof.
  revert h. induction maxAttempts as [|n IH]; intros h.
  - exists 0. split; [lia |]. right. right. split; [done |]. simpl.
    by rewrite app_nil_r.
  - rewrite rejecting_wait_step. cbv zeta. rewrite <- (probe_history_0 h sandbox intervalMs).
    destruct (Rejecting.exec_rejects o (probe_history h sandbox intervalMs 0))
      as [message|] eqn:Hrej.
    { exists 0. split; [lia |]. right. left. split; [lia |]. by exists message. }
    destruct (probe_ok (exec_result w (probe_history h sandbox intervalMs 0))) eqn:Hok.
    { exists 0. split; [lia |]. left. repeat split; [lia | done..]. }
    rewrite probe_history_0.
    destruct (IH ((h ++ [Exec sandbox probe_command None]) ++ [SetTimeout intervalMs]))
      as (k & Hfail & Hcases).
    exists (S k). split.
    + intros [|j] Hj; [by split |]. rewrite probe_history_S. apply Hfail. lia.
    + rewrite probe_history_S.
      destruct Hcases as [(Hk & Hres & Hok' & Hrun)
                         | [(Hk & message & Hrej' & Hrun) | (-> & Hrun)]].
      * left. repeat split; [lia | done..].
      * right. left. split; [lia |]. by exists message.
      * right. right. split; [done |]. by rewrite attempts_S.
Qed.

(** X16: what the readiness poller does is determined by the first probe
    that succeeds or rejects. After [k] probes that resolved without
    finding the agent ready, each followed by a sleep, either probe number
    [k] is within the budget and finds it ready (true), or it is within the
    budget and rejects (the rejection leaves the poller as an exception:
    there is no [try]), or the budget is used up (false). The poller calls
    nothing but the probe and the timer, and with a budget of 0 it calls
    nothing. *)
Theorem waitForOpenCode_outcome (sandbox : string) (maxAttempts : nat)
    (intervalMs : Z) (h : list Call) :
  (∃ k,
     (∀ j, j < k → probe_fails o (probe_history h sandbox intervalMs j))
     ∧ ((k < maxAttempts
         ∧ Rejecting.exec_rejects o (probe_history h sandbox intervalMs k) = None
         ∧ probe_ok (exec_result w (probe_history h sandbox intervalMs k)) = true
         ∧ Rejecting.waitForOpenCode o sandbox maxAttempts intervalMs h =
             (inl true, probe_history h sandbox intervalMs k))
        ∨ (k < maxAttempts
           ∧ ∃ message,
               Rejecting.exec_rejects o (probe_history h sandbox intervalMs k)
                 = Some message
               ∧ Rejecting.waitForOpenCode o sandbox maxAttempts intervalMs h =
                   (inr message, probe_history h sandbox intervalMs k))
        ∨ (k = maxAttempts
           ∧ Rejecting.waitForOpenCode o sandbox maxAttempts intervalMs h =
               (inl false, h ++ attempts sandbox intervalMs maxAttempts))))
  ∧ Rejecting.waitForOpenCode o sandbox 0 intervalMs h = (inl false, h).
Proof. split; [apply rejecting_wait_outcome | reflexivity]. Qed.

(** *** curlJson *)

(** X17: [curlJson] runs one command in the sandbox. When the call rejects,
    [curlJson] throws what it was rejected with (the [await] is outside the
    [try]). When it resolves, [curlJson] returns: if the command failed,
    the error is "curl failed: " with the error output, which is also
    [raw], and [data] is [null]; if its output is not JSON, the error is
    "Failed to parse JSON: " with the message of the parser, [raw] is the
    output and [data] is [null]; otherwise there is no error, [data] is the
    parsed output and [raw] the output. *)
Theorem curlJson_outcome (sandbox method url : string) (body : jsval)
    (h : list Call) :
  let h1 := h ++ [Exec sandbox (curl_command rt method url body) None] in
  let result := exec_result w h1 in
  (∀ message, Rejecting.exec_rejects o h1 = Some message →
     Rejecting.curlJson rt o sandbox method url body h = (inr message, h1))
  ∧ (Rejecting.exec_rejects o h1 = None → success result = false →
       Rejecting.curlJson rt o sandbox method url body h =
         (inl {| data := JNull; raw := stderr result;
                 error := Some ("curl failed: " +:+ stderr result) |}, h1))
  ∧ (∀ message, Rejecting.exec_rejects o h1 = None → success result = true →
       JSON_parse rt (stdout result) = inr message →
       Rejecting.curlJson rt o sandbox method url body h =
         (inl {| data := JNull; raw := stdout result;
                 error := Some ("Failed to parse JSON: " +:+ message) |}, h1))
  ∧ (∀ json, Rejecting.exec_rejects o h1 = None → success result = true →
       JSON_parse rt (stdout result) = inl json →
       Rejecting.curlJson rt o sandbox method url body h =
         (inl {| data := json; raw := stdout result; error := None |}, h1)).
Proof.
  intros h1 result. subst h1 result w.
  unfold Rejecting.curlJson, bind, Rejecting.exec, ret. cbv zeta.
  repeat split.
  - by intros message ->.
  - by intros -> ->.
  - by intros message -> -> ->.
  - by intros json -> -> ->.
Qed.

(** *** Task creation *)

Lemma rejecting_createTask_run (req : CreateTaskRequest) (h : list Call) :
  Rejecting.createTask rt o req h =
    let taskId := taskId_at w h in
    let h1 := (h ++ [GetSandbox taskId]) ++ [Exec taskId (clone_command req) None] in
    let h2 := h1 ++ [start_agent taskId] in
    match Rejecting.exec_rejects o h1 with
    | Some message => (inl (failure message), h1)
    | None =>
        if success (exec_result w h1) then
          match Rejecting.startProcess_rejects o h2 with
          | Some message => (inl (failure message), h2)
          | None =>
              match Rejecting.waitForOpenCode o taskId 30 1000 h2 with
              | (inl true, h3) =>
                  let h4 := h3 ++ [create_session rt taskId req] in
                  match Rejecting.exec_rejects o h4 with
                  | Some message => (inl (failure message), h4)
                  | None =>
                      if success (exec_result w h4) then
                        match JSON_parse rt (stdout (exec_result w h4)) with
                        | inl d =>
                            match OpenCodeSessionResponseSchema d with
                            | Some sessionId =>
                                let h5 := h4 ++ [send_prompt rt taskId req sessionId] in
                                match Rejecting.startProcess_rejects o h5 with
                                | Some message => (inl (failure message), h5)
                                | None =>
                                    (inl (Json
                                            (obj [("data",
                                                   task_record w req h h4 sessionId)])
                                            201),
                                     h5)
                                end
                            | None => session_outcome rt w req h d h4
                            end
                        | inr message =>
                            (inl (failure ("Failed to create session: "
                                           +:+ ("Failed to parse JSON: " +:+ message))),
                             h4)
                        end
                      else
                        (inl (failure ("Failed to create session: "
                                       +:+ ("curl failed: "
                                            +:+ stderr (exec_result w h4)))),
                         h4)
                  end
              | (inl false, h3) =>
                  (inl (failure "OpenCode server failed to start within timeout"), h3)
              | (inr message, h3) => (inl (failure message), h3)
              end
          end
        else
          (inl (failure ("Failed to clone repository: "
                         +:+ stderr (exec_result w h1))),
           h1)
    end.
Proof.
  subst w.
  unfold Rejecting.createTask, try_catch, Rejecting.createTask_try,
    Rejecting.curlJson, session_outcome, failure, start_agent, create_session,
    send_prompt, task_record.
  unfold bind, ret, throw, now_ms, random36, now_iso, getSandbox, Rejecting.exec,
    Rejecting.startProcess.
  cbv beta iota zeta. fold (taskId_at (Rejecting.answers o) h).
  destruct (Rejecting.exec_rejects o _); [reflexivity |].
  destruct (success (exec_result (Rejecting.answers o) _));
    cbv beta iota zeta delta [negb]; [| reflexivity].
  destruct (Rejecting.startProcess_rejects o _); [reflexivity |].
  destruct (Rejecting.waitForOpenCode o _ 30 1000 _) as [[[|] | message] h3];
    cbv beta iota zeta delta [negb]; [| reflexivity | reflexivity].
  destruct (Rejecting.exec_rejects o _); [reflexivity |].
  destruct (success (exec_result (Rejecting.answers o) _));
    cbv beta iota zeta delta [negb]; [| reflexivity].
  destruct (JSON_parse rt _) as [d | message]; cbv beta iota zeta delta [data error];
    [| reflexivity].
  destruct (OpenCodeSessionResponseSchema d) as [sid|].
  - change (truthy (from_option JStr JNull None)) with false.
    cbv beta iota zeta.
    by destruct (Rejecting.startProcess_rejects o _).
  - destruct (OpenCodeErrorResponseSchema d) as [[e msg]|]; [| reflexivity].
    by destruct (truthy (or_else e msg)).
Qed.

Lemma started_app h1 h2 : started (h1 ++ h2) = started h1 ++ started h2.
Proof.
  induction h1 as [|c h1 IH]; [reflexivity |].
  destruct c; simpl; by rewrite IH.
Qed.

Lemma started_attempts sandbox ms k : started (attempts sandbox ms k) = [].
Proof. induction k as [|k IH]; [reflexivity | exact IH]. Qed.

(** The two ways in which a run of [createTask] ends. *)
Lemma rejecting_createTask_cases (req : CreateTaskRequest) (h : list Call) :
  let taskId := taskId_at w h in
  let h1 := h ++ [GetSandbox taskId; Exec taskId (clone_command req) None] in
  (∃ h3 sessionId,
     creates rt o req h h3 sessionId
     ∧ Rejecting.createTask rt o req h =
         (inl (Json
                 (obj [("data",
                        task_record w req h (h3 ++ [create_session rt taskId req])
                          sessionId)])
                 201),
          (h3 ++ [create_session rt taskId req])
          ++ [send_prompt rt taskId req sessionId]))
  ∨ (∃ message tl,
       Rejecting.createTask rt o req h = (inl (failure message), h1 ++ tl)
       ∧ ((∀ command, command ∈ started tl →
             command = "opencode serve --port 4096 --hostname 0.0.0.0")
          ∨ ∃ tl' sessionId,
              tl = tl' ++ [send_prompt rt taskId req sessionId]
              ∧ Rejecting.startProcess_rejects o (h1 ++ tl) = Some message)).
Proof.
  intros taskId h1. rewrite rejecting_createTask_run. cbv zeta. fold taskId.
  rewrite <- history_two. fold h1.
  assert (Hnone : ∀ message,
            ∃ message' tl,
              (inl (failure message), h1) =
                (inl (failure message') : HttpResponse + string, h1 ++ tl)
              ∧ ((∀ command, command ∈ started tl →
                    command = "opencode serve --port 4096 --hostname 0.0.0.0")
                 ∨ ∃ tl' sessionId,
                     tl = tl' ++ [send_prompt rt taskId req sessionId]
                     ∧ Rejecting.startProcess_rejects o (h1 ++ tl) = Some message')).
  { intros message. exists message, []. rewrite app_nil_r.
    split; [reflexivity |]. left. intros c Hc. simpl in Hc.
    by apply elem_of_nil in Hc. }
  destruct (Rejecting.exec_rejects o h1) as [message|] eqn:Hrej1;
    [right; apply Hnone |].
  destruct (success (exec_result w h1)) eqn:Hclone; [| right; apply Hnone].
  assert (Hsome : ∀ message X,
            started X = [] →
            ∃ message' tl,
              (inl (failure message), (h1 ++ [start_agent taskId]) ++ X) =
                (inl (failure message') : HttpResponse + string, h1 ++ tl)
              ∧ ((∀ command, command ∈ started tl →
                    command = "opencode serve --port 4096 --hostname 0.0.0.0")
                 ∨ ∃ tl' sessionId,
                     tl = tl' ++ [send_prompt rt taskId req sessionId]
                     ∧ Rejecting.startProcess_rejects o (h1 ++ tl) = Some message')).
  { intros message X HX. exists message, ([start_agent taskId] ++ X).
    rewrite <- !app_assoc. split; [reflexivity |]. left.
    intros c Hc. rewrite started_app, HX in Hc. simpl in Hc.
    by apply list_elem_of_singleton in Hc. }
  destruct (Rejecting.startProcess_rejects o (h1 ++ [start_agent taskId]))
    as [message|] eqn:Hrej2.
  { right. destruct (Hsome message [] eq_refl) as (m' & tl & Heq & Htl).
    exists m', tl. split; [| exact Htl]. rewrite <- Heq. by rewrite app_nil_r. }
  destruct (rejecting_wait_outcome taskId 30 1000 (h1 ++ [start_agent taskId]))
    as (k & _ & [(_ & _ & _ & Hrun) | [(_ & message & _ & Hrun) | (_ & Hrun)]]);
    rewrite Hrun; cbv beta iota zeta.
  - unfold probe_history in *.
    set (X := attempts taskId 1000 k ++ [Exec taskId probe_command None]) in *.
    assert (HX : started (X ++ [create_session rt taskId req]) = []).
    { subst X. rewrite !started_app, started_attempts. reflexivity. }
    set (h4 := ((h1 ++ [start_agent taskId]) ++ X) ++ [create_session rt taskId req])
      in *.
    assert (Hfail : ∀ message,
              ∃ message' tl,
                (inl (failure message), h4) =
                  (inl (failure message') : HttpResponse + string, h1 ++ tl)
                ∧ ((∀ command, command ∈ started tl →
                      command = "opencode serve --port 4096 --hostname 0.0.0.0")
                   ∨ ∃ tl' sessionId,
                       tl = tl' ++ [send_prompt rt taskId req sessionId]
                       ∧ Rejecting.startProcess_rejects o (h1 ++ tl)
                         = Some message')).
    { intros message.
      destruct (Hsome message (X ++ [create_session rt taskId req]) HX)
        as (m' & tl & Heq & Htl).
      exists m', tl. split; [| exact Htl]. rewrite <- Heq. subst h4.
      by rewrite <- !app_assoc. }
    destruct (Rejecting.exec_rejects o h4) as [message|] eqn:Hrej4;
      [right; apply Hfail |].
    destruct (success (exec_result w h4)) eqn:Hcurl; [| right; apply Hfail].
    destruct (JSON_parse rt _) as [d | message] eqn:Hparse; [| right; apply Hfail].
    destruct (OpenCodeSessionResponseSchema d) as [sid|] eqn:Hschema.
    + destruct (Rejecting.startProcess_rejects o (h4 ++ [send_prompt rt taskId req sid]))
        as [message|] eqn:Hrej5.
      * right. exists message,
          (([start_agent taskId] ++ X ++ [create_session rt taskId req])
           ++ [send_prompt rt taskId req sid]).
        assert (Hh : h4 ++ [send_prompt rt taskId req sid] =
                     h1 ++ ([start_agent taskId] ++ X ++ [create_session rt taskId req])
                          ++ [send_prompt rt taskId req sid]).
        { subst h4. by rewrite <- !app_assoc. }
        rewrite <- Hh. split; [reflexivity |]. right.
        exists ([start_agent taskId] ++ X ++ [create_session rt taskId req]), sid.
        split; [reflexivity | exact Hrej5].
      * left. exists ((h1 ++ [start_agent taskId]) ++ X), sid.
        split; [| reflexivity].
        unfold creates. cbv zeta. fold w. fold taskId. fold h1. fold h4.
        repeat split; try done. by exists d.
    + right. unfold session_outcome. rewrite Hschema.
      destruct (OpenCodeErrorResponseSchema d) as [[e msg]|];
        [destruct (truthy (or_else e msg)) |]; apply Hfail.
  - right. unfold probe_history. apply Hsome.
    by rewrite started_app, started_attempts.
  - right. apply Hsome. apply started_attempts.
Qed.

(** X19: for every request, and whether the calls of [exec] and of
    [startProcess] resolve or reject, [createTask] answers: no exception
    leaves the handler. Either the run creates the task (the clone
    succeeds, the agent is started and ready, the session call succeeds
    and its output holds a session id, the process that sends the prompt is
    started): then the answer is 201 with the task record that holds this
    session id, and the last call is the detached dispatch of the prompt to
    this session. Or the answer is 500 with an error message, after the
    sandbox and the clone: then no process but the agent was started (no
    prompt was sent), or the last call is the dispatch of the prompt, which
    rejected with this message. *)
Theorem createTask_answers (req : CreateTaskRequest) (h : list Call) :
  let taskId := taskId_at w h in
  let h1 := h ++ [GetSandbox taskId; Exec taskId (clone_command req) None] in
  (∃ h3 sessionId,
     creates rt o req h h3 sessionId
     ∧ Rejecting.createTask rt o req h =
         (inl (Json
                 (obj [("data",
                        task_record w req h (h3 ++ [create_session rt taskId req])
                          sessionId)])
                 201),
          (h3 ++ [create_session rt taskId req])
          ++ [StartProcess taskId (message_command rt req sessionId)
                (Some "/workspace/repo") []]))
  ∨ (∃ message tl,
       Rejecting.createTask rt o req h =
         (inl (Json (obj [("error", JStr message)]) 500), h1 ++ tl)
       ∧ ((∀ command, command ∈ started tl →
             command = "opencode serve --port 4096 --hostname 0.0.0.0")
          ∨ ∃ tl' sessionId,
              tl = tl' ++ [StartProcess taskId (message_command rt req sessionId)
                             (Some "/workspace/repo") []]
              ∧ Rejecting.startProcess_rejects o (h1 ++ tl) = Some message)).
Proof. apply rejecting_createTask_cases. Qed.

(** *** Agreement with [TasksApp]

    In a sandbox whose calls all resolve, the functions of [Rejecting] do
    what those of [TasksApp] do: the properties of [TasksApp] are the
    properties of the worker in such a sandbox. *)

Lemma resolving_waitForOpenCode :
  (∀ h, Rejecting.exec_rejects o h = None) →
  ∀ sandbox n ms h,
    Rejecting.waitForOpenCode o sandbox n ms h = waitForOpenCode w sandbox n ms h.
Proof.
  intros Hres sandbox n ms. induction n as [|n IH]; intros h; [reflexivity |].
  rewrite rejecting_wait_step, waitForOpenCode_step. cbv zeta. rewrite Hres.
  destruct (probe_ok _); [reflexivity | apply IH].
Qed.

Lemma resolving_getDiff (taskId : string) (h : list Call) :
  (∀ h, Rejecting.exec_rejects o h = None) →
  Rejecting.getDiff o taskId h = getDiff w taskId h.
Proof.
  intros Hres. unfold Rejecting.getDiff, getDiff, bind, getSandbox, Rejecting.exec,
    exec, ret. cbv zeta. by rewrite Hres.
Qed.

Lemma resolving_curlJson (sandbox method url : string) (body : jsval)
    (h : list Call) :
  (∀ h, Rejecting.exec_rejects o h = None) →
  Rejecting.curlJson rt o sandbox method url body h
  = curlJson rt w sandbox method url body h.
Proof.
  intros Hres. unfold Rejecting.curlJson, curlJson, bind, Rejecting.exec, exec, ret.
  cbv zeta. by rewrite Hres.
Qed.

Lemma resolving_createTask (req : CreateTaskRequest) (h : list Call) :
  (∀ h, Rejecting.exec_rejects o h = None) →
  (∀ h, Rejecting.startProcess_rejects o h = None) →
  Rejecting.createTask rt o req h = createTask rt w req h.
Proof.
  intros Hres Hstart. rewrite rejecting_createTask_run, createTask_run. cbv zeta.
  rewrite Hres, Hstart, resolving_waitForOpenCode by exact Hres.
  destruct (success _); [| reflexivity].
  destruct (waitForOpenCode w _ 30 1000 _) as [[[|] | message] h3];
    [| reflexivity | reflexivity].
  rewrite Hres. destruct (success _); [| reflexivity].
  destruct (JSON_parse rt _) as [d | message]; [| reflexivity].
  unfold session_outcome.
  destruct (OpenCodeSessionResponseSchema d) as [sid|]; [| reflexivity].
  by rewrite Hstart.
Qed.

End RejectingProperties.

(** ** The page against the worker, when [exec] may reject *)

Section RejectingEndToEnd.
Import JS TasksApp Spec.
Context (rt : Runtime) (o : Rejecting.Outside)
  (fetch : Client.Request → option Client.Response).

Let w : World := Rejecting.answers o.

(** X22: when [fetch] brings back what the worker answers to the diff
    request, [fetchTaskDiff] has two outcomes. If the call of [exec]
    resolves, it returns the standard output of [git diff HEAD], whether
    the command succeeded or not. If the call of [exec] rejects, the
    exception leaves the handler, the answer is not [ok], and
    [fetchTaskDiff] throws [Error("Failed to fetch diff")]: the message of
    the rejection is lost. *)
Theorem fetchTaskDiff_of_getDiff (taskId : string) (h : list Call) :
  fetch {| Client.url := "/api/tasks/" +:+ taskId +:+ "/diff";
           Client.method := "GET"; Client.headers := []; Client.body := None |}
    = Some (served (Rejecting.getDiff o taskId h)) →
  let h1 :=
    h ++ [GetSandbox taskId; Exec taskId "git diff HEAD" (Some "/workspace/repo")] in
  (Rejecting.exec_rejects o h1 = None →
     Client.fetchTaskDiff fetch taskId = inl (JStr (stdout (exec_result w h1))))
  ∧ (∀ message, Rejecting.exec_rejects o h1 = Some message →
       Client.fetchTaskDiff fetch taskId
       = inr (Client.Thrown (JStr "Failed to fetch diff"))).
Proof.
  intros Hfetch h1. rewrite getDiff_outcome in Hfetch. cbv zeta in Hfetch.
  fold h1 in Hfetch. unfold Client.fetchTaskDiff. rewrite Hfetch. split.
  - intros Hres. rewrite Hres. fold w.
    set (out := stdout _).
    change (inl (or_else (JStr out) (JStr "")) = (inl (JStr out) : jsval + Client.Failure)).
    by rewrite or_else_string.
  - intros message Hrej. by rewrite Hrej.
Qed.

(** X23: when [fetch] brings back what the worker answers to the creation
    request, [createTask] of the page has three outcomes. A body that the
    request schema refuses is answered by the validator with 400 and the
    description of the refusal, an object: [createTask] throws an [Error]
    made from this object, whose message reads "[object Object]". A body
    that the schema accepts either creates the task, and [createTask]
    returns the task record that holds the session id of the session call,
    or is answered with 500 and an error message, and [createTask] throws
    an [Error] with this message ("Failed to create task" when the
    message is empty). *)
Theorem createTask_of_worker (is_url : string → bool)
    (zod_error : CreateTaskRequest → gmap string jsval)
    (req : CreateTaskRequest) (h : list Call) :
  fetch {| Client.url := "/api/tasks"; Client.method := "POST";
           Client.headers := [("Content-Type", "application/json")];
           Client.body :=
             Some (JSON_stringify rt
                     (obj [("repoUrl", JStr (repoUrl req));
                           ("branch", JStr (branch req));
                           ("prompt", JStr (prompt req))])) |}
    = Some (served (Rejecting.post_tasks rt o is_url zod_error req h)) →
  let taskId := taskId_at w h in
  (Rejecting.CreateTaskSchema is_url req = false →
     Rejecting.post_tasks rt o is_url zod_error req h
     = (inl (Json (obj [("success", JBool false); ("error", JObj (zod_error req))])
               400),
        h)
     ∧ Client.createTask rt fetch req = inr (Client.Thrown (JObj (zod_error req)))
     ∧ ∀ num, zod_error req !! "toString" = None →
         ToString num (JObj (zod_error req)) = Some "[object Object]")
  ∧ (Rejecting.CreateTaskSchema is_url req = true →
     (∃ h3 sessionId,
        creates rt o req h h3 sessionId
        ∧ Client.createTask rt fetch req
          = inl (task_record w req h (h3 ++ [create_session rt taskId req])
                   sessionId))
     ∨ (∃ message h',
          Rejecting.post_tasks rt o is_url zod_error req h
          = (inl (Json (obj [("error", JStr message)]) 500), h')
          ∧ Client.createTask rt fetch req
            = inr (Client.Thrown
                     (JStr (if String.eqb message "" then "Failed to create task"
                            else message))))).
Proof.
  intros Hfetch taskId. unfold Rejecting.post_tasks in *. split; intros Hschema;
    rewrite Hschema in Hfetch |- *.
  - split; [reflexivity |]. split.
    + unfold Client.createTask. rewrite Hfetch. reflexivity.
    + intros num Hnone. simpl. rewrite Hnone.
      by destruct (decide (is_Some None)) as [[? ?]|].
  - destruct (rejecting_createTask_cases rt o req h)
      as [(h3 & sid & Hcreates & Hrun) | (message & tl & Hrun & _)];
      cbv zeta in Hrun; fold w in Hrun; fold taskId in Hrun; rewrite Hrun in Hfetch.
    + left. exists h3, sid. split; [exact Hcreates |].
      unfold Client.createTask. rewrite Hfetch. reflexivity.
    + right. eexists message, _. split; [exact Hrun |].
      unfold Client.createTask. rewrite Hfetch.
      change (inr (Client.Thrown
                     (if negb (String.eqb message "") then JStr message
                      else JStr "Failed to create task"))
              = (inr (Client.Thrown
                        (JStr (if String.eqb message "" then "Failed to create task"
                               else message))) : jsval + Client.Failure)).
      by destruct (String.eqb message "").
Qed.

End RejectingEndToEnd.

(** ** The properties above on sample sandboxes *)

Section RejectingSamples.
Import JS TasksApp Spec.

Let tid : string := "task-1735689600000-82mvyr".

(** C7, counterexample: the container of the task is gone and [exec]
    rejects; the diff operation does not answer with success, it ends in
    the error of the rejection. *)
Lemma diff_fails_when_exec_rejects :
  ¬ diff_never_an_error Sample.gone "task-1" [].
Proof.
  unfold diff_never_an_error. intros Hclaim.
  vm_compute in Hclaim. discriminate Hclaim.
Qed.

(** A sandbox without a repository, in which [git diff HEAD] fails and
    prints nothing on its standard output: the diff is empty, the answer
    200. A sandbox whose [exec] rejects: the handler throws. *)
Lemma diff_when_exec_resolves_witness :
  Rejecting.getDiff (Sample.resolving Sample.clone_fails) "task-1" [] =
    (inl (Json (obj [("data", obj [("diff", JStr ""); ("taskId", JStr "task-1")])])
            200),
     [GetSandbox "task-1"; Exec "task-1" "git diff HEAD" (Some "/workspace/repo")])
  ∧ Rejecting.getDiff Sample.gone "task-1" [] =
      (inr "Container is not running",
       [GetSandbox "task-1"; Exec "task-1" "git diff HEAD" (Some "/workspace/repo")]).
Proof.
  split.
  - exact (proj2 (proj1 (diff_when_exec_resolves
                           (Sample.resolving Sample.clone_fails) "task-1" [])
                    eq_refl)
             eq_refl).
  - exact (proj1 (proj2 (diff_when_exec_resolves Sample.gone "task-1" [])
                    "Container is not running" eq_refl)).
Defined.

(** The diff of a sandbox that prints "[]" for every command, and the diff
    of a sandbox whose [exec] rejects. *)
Lemma fetchTaskDiff_of_getDiff_witness :
  Client.fetchTaskDiff
    (Sample.network
       (Rejecting.getDiff (Sample.resolving (Sample.prints "[]")) "task-1" []))
    "task-1" = inl (JStr "[]")
  ∧ Client.fetchTaskDiff
      (Sample.network (Rejecting.getDiff Sample.gone "task-1" [])) "task-1"
    = inr (Client.Thrown (JStr "Failed to fetch diff")).
Proof.
  split.
  - exact (proj1 (fetchTaskDiff_of_getDiff (Sample.resolving (Sample.prints "[]"))
                    (Sample.network
                       (Rejecting.getDiff (Sample.resolving (Sample.prints "[]"))
                          "task-1" []))
                    "task-1" [] eq_refl)
             eq_refl).
  - exact (proj2 (fetchTaskDiff_of_getDiff Sample.gone
                    (Sample.network (Rejecting.getDiff Sample.gone "task-1" []))
                    "task-1" [] eq_refl)
             "Container is not running" eq_refl).
Defined.

(** A request without a prompt is refused by the validator, and the page
    throws an [Error] made from the description of the refusal. A request
    to a sandbox whose [exec] rejects is answered with 500 and the message
    of the rejection, and the page throws an [Error] with this message. *)
Lemma createTask_of_worker_witness :
  Client.createTask Sample.runtime
    (Sample.network
       (Rejecting.post_tasks Sample.runtime Sample.gone Sample.is_https
          Sample.issues Sample.no_prompt []))
    Sample.no_prompt
  = inr (Client.Thrown (JObj {[ "name" := JStr "ZodError" ]}))
  ∧ Client.createTask Sample.runtime
      (Sample.network
         (Rejecting.post_tasks Sample.runtime Sample.gone Sample.is_https
            Sample.issues Sample.request []))
      Sample.request
    = inr (Client.Thrown (JStr "Container is not running")).
Proof.
  split.
  - exact (proj1 (proj2 (proj1 (createTask_of_worker Sample.runtime Sample.gone
                                  (Sample.network
                                     (Rejecting.post_tasks Sample.runtime Sample.gone
                                        Sample.is_https Sample.issues
                                        Sample.no_prompt []))
                                  Sample.is_https Sample.issues Sample.no_prompt []
                                  eq_refl)
                           eq_refl))).
  - destruct (proj2 (createTask_of_worker Sample.runtime Sample.gone
                       (Sample.network
                          (Rejecting.post_tasks Sample.runtime Sample.gone
                             Sample.is_https Sample.issues Sample.request []))
                       Sample.is_https Sample.issues Sample.request [] eq_refl)
                eq_refl)
      as [(h3 & sid & (Hnone & _) & _) | (message & h' & Hrun & Hthrown)].
    + discriminate Hnone.
    + rewrite Hthrown.
      assert (Hmsg : Some (JStr "Container is not running") = Some (JStr message))
        by exact (f_equal (λ out, match response_of out with
                                  | Some x => response_error x
                                  | None => None
                                  end)
                    Hrun).
      injection Hmsg as <-. reflexivity.
Defined.

(** The run that creates a task: every command succeeds and prints the
    answer of the agent to the session call; the agent is ready at the
    first probe, and the session is "ses_1". *)
Example creates_sample :
  creates Sample.runtime Sample.agent_up Sample.request []
    [GetSandbox tid;
     Exec tid
       "git clone --branch main --single-branch https://example.com/r.git /workspace/repo"
       None;
     start_agent tid;
     Exec tid probe_command None]
    "ses_1".
Proof.
  unfold creates. cbv zeta.
  refine (conj _ (conj _ (conj _ (conj _ (conj _ (conj _
            (conj (ex_intro _ (obj [("id", JStr "ses_1")]) (conj _ _)) _)))))));
    vm_compute; reflexivity.
Qed.

(** In this run the answer is 201, and the prompt goes to "ses_1". *)
Example createTask_sample :
  response_of (Rejecting.createTask Sample.runtime Sample.agent_up Sample.request [])
    ≫= response_status = Some 201%Z
  ∧ last (Rejecting.createTask Sample.runtime Sample.agent_up Sample.request []).2
    = Some (StartProcess tid
              (message_command Sample.runtime Sample.request "ses_1")
              (Some "/workspace/repo") []).
Proof. split; vm_compute; reflexivity. Qed.

(** A sandbox whose [exec] rejects: the poll and the call of curl throw
    what [exec] rejects with, and the creation answers 500 with it. *)
Example exec_rejects_sample :
  Rejecting.waitForOpenCode Sample.gone "task-1" 30 1000 [] =
    (inr "Container is not running", [Exec "task-1" probe_command None])
  ∧ (Rejecting.curlJson Sample.runtime Sample.gone "task-1" "POST"
       "http://localhost:4096/session/ses_1/abort" JUndefined []).1
    = inr "Container is not running"
  ∧ Rejecting.createTask Sample.runtime Sample.gone Sample.request [] =
      (inl (failure "Container is not running"),
       [GetSandbox tid;
        Exec tid
          "git clone --branch main --single-branch https://example.com/r.git /workspace/repo"
          None]).
Proof. repeat split; vm_compute; reflexivity. Qed.

(** The agent is up and the session exists, but the process that sends the
    prompt cannot be started: the answer is 500 with the message of the
    rejection, and the last call is the dispatch that rejected. *)
Example dispatch_rejects_sample :
  response_of (Rejecting.createTask Sample.runtime Sample.no_dispatch Sample.request [])
  = Some (failure "Process limit reached")
  ∧ last (Rejecting.createTask Sample.runtime Sample.no_dispatch Sample.request []).2
    = Some (send_prompt Sample.runtime tid Sample.request "ses_1").
Proof. split; vm_compute; reflexivity. Qed.

End RejectingSamples.
